(** * Evaluation engine of roast_my_cv ([cv_processor.py], [CVProcessor])

    Shallow embedding of the issue taxonomy, the automatic ground-truth
    detector [_detect_cv_issues], the section coverage scorer
    [calculate_section_coverage], the precision/recall/F1 scorer
    [calculate_issue_detection_metrics], the cross-model evaluator
    [evaluate_all_models] and the best-model selection of
    [process_new_cv.main].

    Modelling choices:
    - a Python [str] is a Rocq [string] whose characters are code points
      0..255 (Latin-1); [str.lower], [str.split], [in] and the regex of the
      metrics rule are written out for that range;
    - Python floats are exact rationals [Q]; [/] is [py_div], which fails
      ([None], i.e. [ZeroDivisionError]) on a zero denominator;
    - a Python [set] of strings is a [gset string], [len] is [size];
    - a Python [dict] iterated in insertion order is an association list. *)

From Stdlib Require Import String Ascii QArith Qfield Lqa.
From stdpp Require Import base list gmap strings.

Local Open Scope string_scope.
Local Open Scope nat_scope.

(* ------------------------------------------------------------------ *)
(** ** Python string primitives on code points 0..255 *)

(** [str.lower] on one code point: A-Z and the Latin-1 capitals
    U+00C0..U+00DE (except U+00D7, the multiplication sign) map to their
    lower-case letter, 32 code points higher. *)
Definition py_lower_char (c : ascii) : ascii :=
  let n := nat_of_ascii c in
  if ((65 <=? n) && (n <=? 90)) || ((192 <=? n) && (n <=? 222) && negb (n =? 215))
  then ascii_of_nat (n + 32) else c.

Fixpoint py_lower (s : string) : string :=
  match s with
  | EmptyString => EmptyString
  | String c r => String (py_lower_char c) (py_lower r)
  end.

(** [s.startswith(p)] *)
Fixpoint starts_with (p s : string) : bool :=
  match p, s with
  | EmptyString, _ => true
  | String a p', String b s' => Ascii.eqb a b && starts_with p' s'
  | _, _ => false
  end.

(** [kw in s] *)
Fixpoint py_in (kw s : string) : bool :=
  starts_with kw s || match s with EmptyString => false | String _ r => py_in kw r end.

(** [any(kw in s for kw in kws)] *)
Definition any_in (kws : list string) (s : string) : bool :=
  existsb (fun kw => py_in kw s) kws.

(** Whitespace of [str.split()] below U+0100: \t \n \x0b \x0c \r,
    \x1c..\x1f, space, U+0085 and U+00A0. *)
Definition py_isspace (c : ascii) : bool :=
  let n := nat_of_ascii c in
  ((9 <=? n) && (n <=? 13)) || ((28 <=? n) && (n <=? 32)) || (n =? 133) || (n =? 160).

(** [str.split()] with no separator: maximal runs of non-whitespace.
    [py_split_aux s] returns the word that [s] starts with (possibly
    empty) and the words after it. *)
Fixpoint py_split_aux (s : string) : string * list string :=
  match s with
  | EmptyString => (EmptyString, [])
  | String c r =>
      let '(w, ws) := py_split_aux r in
      if py_isspace c
      then (EmptyString, match w with EmptyString => ws | _ => w :: ws end)
      else (String c w, ws)
  end.

Definition py_split (s : string) : list string :=
  let '(w, ws) := py_split_aux s in
  match w with EmptyString => ws | _ => w :: ws end.

(* ------------------------------------------------------------------ *)
(** ** The regex [\d+%|\d+x|increased|reduced|improved \d+] *)

(** [\d] below U+0100 is 0-9 (the superscript digits are not decimal). *)
Definition is_digit (c : ascii) : bool :=
  let n := nat_of_ascii c in (48 <=? n) && (n <=? 57).

(** [\d+c] matches at the start of [s]: a digit, then either [c] or
    again [\d+c] (backtracking over the length of the digit run). *)
Fixpoint digits_then (c : ascii) (s : string) : bool :=
  match s with
  | EmptyString => false
  | String d r => is_digit d && (starts_with (String c EmptyString) r || digits_then c r)
  end.

(** [p\d+] matches at the start of [s]: the literal [p], then one digit
    (the rest of the [\d+] run does not change whether it matches). *)
Fixpoint lit_then_digits (p s : string) : bool :=
  match p, s with
  | EmptyString, String d _ => is_digit d
  | String a p', String b s' => Ascii.eqb a b && lit_then_digits p' s'
  | _, _ => false
  end.

(** One alternative of the pattern matches at the start of [s]. *)
Definition metrics_pattern_at (s : string) : bool :=
  digits_then "%" s || digits_then "x" s || starts_with "increased" s
  || starts_with "reduced" s || lit_then_digits "improved " s.

(** [re.search(pattern, s)]: the pattern matches at some position. *)
Fixpoint re_search (at_pos : string -> bool) (s : string) : bool :=
  at_pos s || match s with EmptyString => false | String _ r => re_search at_pos r end.

(* ------------------------------------------------------------------ *)
(** ** The two taxonomies (class attributes of [CVProcessor]) *)

(** The key [clichÃ©] of the source, as Latin-1 code points. *)
Definition cliche_mojibake : string :=
  String.append "clich" (String (ascii_of_nat 195) (String (ascii_of_nat 169) EmptyString)).

Definition EXPECTED_CV_ELEMENTS : list (string * list string) :=
  [("career_objective", ["career objective"; "objective"; "summary"; "professional summary"]);
   ("skills", ["skills"; "technical skills"; "competencies"; "expertise"]);
   ("education", ["education"; "academic"; "degree"; "university"; "college"]);
   ("experience", ["experience"; "work history"; "employment"; "professional experience"]);
   ("contact", ["email"; "phone"; "address"; "contact"; "linkedin"]);
   ("achievements", ["achievement"; "award"; "accomplishment"; "certification"]);
   ("projects", ["project"; "portfolio"])].

Definition COMMON_CV_ISSUES : list (string * list string) :=
  [("typos", ["typo"; "spelling"; "grammar"; "grammatical"]);
   ("vague_objective", ["vague"; "generic"; "unclear objective"; "bland objective"]);
   ("skill_organization", ["organize skills"; "categorize skills"; "skill structure"]);
   ("no_metrics", ["quantif"; "metric"; "number"; "measurable"; "achievement"]);
   ("buzzwords", ["buzzword"; cliche_mojibake; "jargon"; "overused"]);
   ("formatting", ["format"; "layout"; "structure"; "consistency"]);
   ("length", ["too long"; "too short"; "concise"; "verbose"]);
   ("relevance", ["relevant"; "irrelevant"; "focus"])].

(** [d[k]] on an association list; [dflt] is never reached for the keys
    looked up below, which are all present. *)
Fixpoint dict_get {V} (d : list (string * V)) (k : string) (dflt : V) : V :=
  match d with
  | [] => dflt
  | (k', v) :: r => if String.eqb k k' then v else dict_get r k dflt
  end.

(* ------------------------------------------------------------------ *)
(** ** [_detect_cv_issues] *)

Definition buzzword_list : list string :=
  ["synergy"; "innovative"; "dynamic"; "results-driven"; "team player"; "hard worker"].

Definition detect_cv_issues (cv_text : string) : list string :=
  let cv_lower := py_lower cv_text in
  let vague :=
    if any_in ["seeking"; "looking for"; "opportunity"] cv_lower
    then if negb (any_in ["specific"; "specialize"; "expert in"] cv_lower)
         then ["vague_objective"] else []
    else [] in
  let no_metrics :=
    if negb (re_search metrics_pattern_at cv_text) then ["no_metrics"] else [] in
  let buzz :=
    if 2 <=? length (List.filter (fun bw => py_in bw cv_lower) buzzword_list)
    then ["buzzwords"] else [] in
  let word_count := length (py_split cv_text) in
  let len :=
    if word_count <? 200 then ["length"]
    else if 1000 <? word_count then ["length"] else [] in
  let has_skills := any_in (dict_get EXPECTED_CV_ELEMENTS "skills" []) cv_lower in
  let has_experience := any_in (dict_get EXPECTED_CV_ELEMENTS "experience" []) cv_lower in
  let fmt := if negb has_skills || negb has_experience then ["formatting"] else [] in
  vague ++ no_metrics ++ buzz ++ len ++ fmt.

(* ------------------------------------------------------------------ *)
(** ** Python arithmetic on the metrics *)

(** [int] to [float]. *)
Definition Q_of_nat (n : nat) : Q := inject_Z (Z.of_nat n).

(** Python's true division [a / b]: [ZeroDivisionError] when [b] is 0. *)
Definition py_div (a b : Q) : option Q :=
  if Qeq_bool b 0 then None else Some (a / b)%Q.

(** [x > 0] on floats. *)
Definition Qgt0_bool (x : Q) : bool := negb (Qle_bool x 0).

(* ------------------------------------------------------------------ *)
(** ** [calculate_section_coverage] *)

Record coverage_result := {
  total_sections_in_cv : nat;
  sections_addressed_in_critique : nat;
  coverage_rate : Q;
  sections_present : list (string * bool);
  sections_covered : list (string * bool)
}.

Definition calculate_section_coverage (cv_text critique : string) : option coverage_result :=
  let cv_lower := py_lower cv_text in
  let critique_lower := py_lower critique in
  let sections_present := map (fun '(section, keywords) => (section, any_in keywords cv_lower))
                              EXPECTED_CV_ELEMENTS in
  let sections_covered := map (fun '(section, keywords) => (section, any_in keywords critique_lower))
                              EXPECTED_CV_ELEMENTS in
  let total_sections := list_sum (map (fun '(_, b) => Nat.b2n b) sections_present) in
  let covered_sections :=
    length (List.filter (fun '(section, b) => b && dict_get sections_covered section false)
                   sections_present) in
  coverage_rate ← (if 0 <? total_sections
                   then py_div (Q_of_nat covered_sections) (Q_of_nat total_sections)
                   else Some 0%Q);
  Some {| total_sections_in_cv := total_sections;
          sections_addressed_in_critique := covered_sections;
          coverage_rate := coverage_rate;
          sections_present := sections_present;
          sections_covered := sections_covered |}.

(* ------------------------------------------------------------------ *)
(** ** [calculate_issue_detection_metrics] *)

Record eval_result := {
  precision : Q;
  recall : Q;
  f1_score : Q;
  true_positives : nat;
  false_positives : nat;
  false_negatives : nat;
  ground_truth_issues : list string;
  detected_issues : list string;
  missed_issues : gset string;   (* [list(set(...))]: order unspecified *)
  extra_mentions : gset string
}.

(** The loop over [COMMON_CV_ISSUES] building [detected_issues]. *)
Definition detect_mentions (critique_lower : string) : list string :=
  map fst (List.filter (fun '(_, keywords) => any_in keywords critique_lower) COMMON_CV_ISSUES).

(** [ground_truth_issues = None] is the Python default [None]. *)
Definition calculate_issue_detection_metrics (cv_text critique : string)
    (ground_truth_issues : option (list string)) : option eval_result :=
  let critique_lower := py_lower critique in
  let gt := match ground_truth_issues with
            | None => detect_cv_issues cv_text
            | Some g => g
            end in
  let detected := detect_mentions critique_lower in
  let G : gset string := list_to_set gt in
  let D : gset string := list_to_set detected in
  let tp := size (G ∩ D) in
  let fp := size (D ∖ G) in
  let fn := size (G ∖ D) in
  precision ← (if 0 <? tp + fp then py_div (Q_of_nat tp) (Q_of_nat (tp + fp)) else Some 0%Q);
  recall ← (if 0 <? tp + fn then py_div (Q_of_nat tp) (Q_of_nat (tp + fn)) else Some 0%Q);
  f1 ← (if Qgt0_bool (precision + recall)%Q
        then py_div (2 * (precision * recall))%Q (precision + recall)%Q else Some 0%Q);
  Some {| precision := precision; recall := recall; f1_score := f1;
          true_positives := tp; false_positives := fp; false_negatives := fn;
          ground_truth_issues := gt; detected_issues := detected;
          missed_issues := G ∖ D; extra_mentions := D ∖ G |}.

(* ------------------------------------------------------------------ *)
(** ** [evaluate_all_models] and the best-model selection *)

(** One row of the result [DataFrame]. *)
Record model_row := {
  model : string;
  row_coverage_rate : Q;
  sections_addressed : nat;
  row_precision : Q;
  row_recall : Q;
  row_f1_score : Q;
  row_true_positives : nat;
  row_false_positives : nat;
  row_false_negatives : nat;
  critique_length : nat
}.

(** [critiques] is the dict of critiques in insertion order. *)
Fixpoint evaluate_all_models (cv_text : string) (critiques : list (string * string))
    (ground_truth_issues : option (list string)) : option (list model_row) :=
  match critiques with
  | [] => Some []
  | (model_name, critique) :: rest =>
      coverage ← calculate_section_coverage cv_text critique;
      detection ← calculate_issue_detection_metrics cv_text critique ground_truth_issues;
      rows ← evaluate_all_models cv_text rest ground_truth_issues;
      Some ({| model := model_name;
               row_coverage_rate := coverage_rate coverage;
               sections_addressed := sections_addressed_in_critique coverage;
               row_precision := precision detection;
               row_recall := recall detection;
               row_f1_score := f1_score detection;
               row_true_positives := true_positives detection;
               row_false_positives := false_positives detection;
               row_false_negatives := false_negatives detection;
               critique_length := length (py_split critique) |} :: rows)
  end.

(** pandas [Series.idxmax] on a default [RangeIndex]: the position of the
    first occurrence of the maximum; [ValueError] ([None]) when empty.
    [idxmax_from i bi b l]: [i] is the position of the head of [l], [bi]
    and [b] the position and value of the maximum seen so far. *)
Fixpoint idxmax_from (i bi : nat) (b : Q) (l : list Q) : nat :=
  match l with
  | [] => bi
  | x :: r => if Qle_bool x b then idxmax_from (S i) bi b r else idxmax_from (S i) i x r
  end.

Definition idxmax (l : list Q) : option nat :=
  match l with
  | [] => None
  | x :: r => Some (idxmax_from 1 0 x r)
  end.

(** [df_results.loc[df_results['f1_score'].idxmax()]] in [process_new_cv.main]. *)
Definition best_model_row (df_results : list model_row) : option model_row :=
  i ← idxmax (map row_f1_score df_results);
  df_results !! i.

(* ------------------------------------------------------------------ *)
(** ** [generate_critiques] and steps 4-5 of [process_new_cv.main] *)

(** Truthiness of an optional Python [str] ([None] or [""] are false). *)
Definition py_truthy (k : option string) : bool :=
  match k with
  | Some s => negb (String.eqb s "")
  | None => false
  end.

Definition nl : string := String (ascii_of_nat 10) EmptyString.

(** The outcome of [model.generate_content(full_prompt)]: the response
    text, or an exception with its message [str(e)]. *)
Inductive api_result :=
| Response (text : string)
| ApiError (msg : string).

(** The three entries of [prompts], in insertion order, with their
    temperatures. *)
Definition critique_models : list (string * Q) :=
  [("gentle", 4 # 10); ("medium", 7 # 10); ("brutal", 9 # 10)]%Q.

Section Critiques.

(** [prompts[name]['system']], the fixed system prompt of each model. *)
Variable system_prompt : string -> string.
(** The Gemini call: temperature and full prompt to its outcome. *)
Variable generate_content : Q -> string -> api_result.
(** [genai.GenerativeModel(...)] with the given temperature returns
    without raising; it is outside the per-call [try]. *)
Variable model_created : Q -> bool.

Definition full_prompt (model_name cv_text : string) : string :=
  String.append (system_prompt model_name)
    (String.append nl (String.append nl (String.append "Review this CV:"
       (String.append nl (String.append nl cv_text))))).

(** The loop over [prompts.items()]; [None] when a model construction
    raises, which leaves the loop and the function. *)
Fixpoint generate_loop (models : list (string * Q)) (cv_text : string)
    : option (list (string * string)) :=
  match models with
  | [] => Some []
  | (model_name, temperature) :: rest =>
      if model_created temperature
      then
        let critique :=
          match generate_content temperature (full_prompt model_name cv_text) with
          | Response text => text
          | ApiError e => String.append "Error: " e
          end in
        cs ← generate_loop rest cv_text; Some ((model_name, critique) :: cs)
      else None
  end.

(** [generate_critiques]; [None] when it raises: the [ValueError]
    without key or library ([genai_loaded] is [genai is not None]), or
    an exception of [genai.GenerativeModel]. *)
Definition generate_critiques (api_key : option string) (genai_loaded : bool)
    (cv_text : string) : option (list (string * string)) :=
  if negb (py_truthy api_key) || negb genai_loaded
  then None
  else generate_loop critique_models cv_text.

(** What step 5 of [process_new_cv.main] works on: the evaluation table
    and the row selected as best, or the detector's issues alone. *)
Inductive step5_output :=
| Evaluated (rows : list model_row) (best : option model_row)
| IssuesOnly (issues : list string).

(** Steps 4 and 5. Critiques are generated only with a key; any
    exception in the [try] of step 4 ([generate_critiques], or
    [save_dir.mkdir] and the writes of the critique files, which
    succeed exactly when [critiques_saved]) leaves [critiques = None];
    [if critiques:] is false for [None] and for an empty dict. The
    write of the metrics file ([metrics_saved]) has no [try]: when it
    raises, the script stops before selecting the best model, which is
    [None] here. Printing is taken to succeed. *)
Definition process_steps_4_5 (api_key : option string) (genai_loaded : bool)
    (critiques_saved metrics_saved : bool) (cv_text : string) : option step5_output :=
  let critiques :=
    if py_truthy api_key
    then match generate_critiques api_key genai_loaded cv_text with
         | Some cs => if critiques_saved then Some cs else None
         | None => None
         end
    else None in
  match critiques with
  | Some ((_ :: _) as cs) =>
      rows ← evaluate_all_models cv_text cs None;
      if metrics_saved then Some (Evaluated rows (best_model_row rows)) else None
  | _ => Some (IssuesOnly (detect_cv_issues cv_text))
  end.

End Critiques.

(* ------------------------------------------------------------------ *)
(** ** API key lookup of [process_new_cv.main] *)

(** [config_key]: [None] when [from config import GEMINI_API_KEY]
    raises [ImportError]; [env_key]: [None] when [dotenv] is not
    installed, else the result of [os.getenv('GEMINI_API_KEY')]. *)
Definition resolve_api_key (cli_key : option string) (config_key : option string)
    (env_key : option (option string)) : option string :=
  let api_key := cli_key in
  let api_key := if negb (py_truthy api_key)
                 then match config_key with Some k => Some k | None => api_key end
                 else api_key in
  let api_key := if negb (py_truthy api_key)
                 then match env_key with Some k => k | None => api_key end
                 else api_key in
  api_key.

(* ------------------------------------------------------------------ *)
(** ** [check_setup.check_setup] *)

(** [key[:10] + "..." + key[-5:]]; [key[-5:]] starts at
    [max(len(key) - 5, 0)], which is [String.length key - 5] in [nat]. *)
Definition mask_key (key : string) : string :=
  String.append (substring 0 10 key)
    (String.append "..." (substring (String.length key - 5) 5 key)).

(** The value bound to [GEMINI_API_KEY] in [config.py]: a [str]; a
    falsy value of another type, such as [None]; or a truthy value of
    another built-in type, which differs from "YOUR_API_KEY_HERE" and
    makes the masking [GEMINI_API_KEY[:10] + "..."] raise [TypeError]. *)
Inductive key_value :=
| KeyStr (s : string)
| KeyFalsy
| KeyTruthyOther.

(** [from config import GEMINI_API_KEY]: the value, an [ImportError]
    with its message [str(e)], or another exception raised while running
    [config.py] (a [SyntaxError], say), which is not caught. *)
Inductive config_outcome :=
| ConfigValue (v : key_value)
| ConfigImportError (msg : string)
| ConfigOtherError.

(** [.gitignore]: absent, present but [open]/[read] raises (not caught),
    or read with this content. *)
Inductive file_read :=
| FileMissing
| FileUnreadable
| FileContent (content : string).

(** [__import__(name)]: returns, raises [ImportError] (caught), or
    raises another exception (not caught). *)
Inductive import_outcome :=
| Imported
| NotImportable
| ImportRaises.

(** The file system and Python environment the script inspects. *)
Record setup_env := {
  config_exists : bool;
  config_import : config_outcome;
  gitignore : file_read;
  dir_exists : string -> bool;
  importable : string -> import_outcome
}.

(** [s.replace(a, b)] for one-character [a] and [b]. *)
Fixpoint py_replace_char (a b : ascii) (s : string) : string :=
  match s with
  | EmptyString => EmptyString
  | String c r => String (if Ascii.eqb c a then b else c) (py_replace_char a b r)
  end.

(** [sep.join(l)] *)
Fixpoint py_join (sep : string) (l : list string) : string :=
  match l with
  | [] => EmptyString
  | [x] => x
  | x :: r => String.append x (String.append sep (py_join sep r))
  end.

(** Check 1: the issues it adds; [None] when it raises. *)
Definition config_issues (env : setup_env) : option (list string) :=
  if config_exists env
  then match config_import env with
       | ConfigValue (KeyStr key) =>
           if negb (String.eqb key "") && negb (String.eqb key "YOUR_API_KEY_HERE")
           then Some [] else Some ["API key not set in config.py"]
       | ConfigValue KeyFalsy => Some ["API key not set in config.py"]
       | ConfigValue KeyTruthyOther => None
       | ConfigImportError e => Some [String.append "Cannot import from config.py: " e]
       | ConfigOtherError => None
       end
  else Some ["config.py not found"].

(** Check 2: the warnings it adds; [None] when reading raises. *)
Definition gitignore_warnings (env : setup_env) : option (list string) :=
  match gitignore env with
  | FileContent gitignore_content =>
      if py_in "config.py" gitignore_content then Some []
      else Some [".gitignore doesn't protect config.py"]
  | FileMissing => Some [".gitignore not found"]
  | FileUnreadable => None
  end.

(** Check 3. *)
Definition dir_warnings (env : setup_env) : list string :=
  flat_map (fun dir_name => if dir_exists env dir_name then []
                            else [String.append dir_name "/ directory not found"])
           ["data"; "results"; "notebooks"].

(** The name passed to [__import__]. *)
Definition import_name (package : string) : string :=
  py_replace_char "-" "_" (py_replace_char "." "_" package).

(** Check 4: the loop building [missing_deps]; [None] when an import
    raises something other than [ImportError]. *)
Fixpoint missing_deps_loop (env : setup_env) (packages : list string) : option (list string) :=
  match packages with
  | [] => Some []
  | package :: rest =>
      match importable env (import_name package) with
      | Imported => missing_deps_loop env rest
      | NotImportable => missing ← missing_deps_loop env rest; Some (package :: missing)
      | ImportRaises => None
      end
  end.

(** The issues, the warnings and the return value; [None] when the
    function raises. *)
Definition check_setup (env : setup_env) : option (list string * list string * nat) :=
  issues ← config_issues env;
  warnings ← gitignore_warnings env;
  let warnings := (warnings ++ dir_warnings env)%list in
  missing_deps ← missing_deps_loop env ["pandas"; "google.generativeai"; "PyPDF2"];
  let issues :=
    match missing_deps with
    | [] => issues
    | _ => (issues ++ [String.append "Missing dependencies: " (py_join ", " missing_deps)])%list
    end in
  Some (issues, warnings, match issues, warnings with [], [] => 0 | _, _ => 1 end).

(* ------------------------------------------------------------------ *)
(** ** [_extract_section] and [parse_cv_text] *)

(** [\w] below U+0100: digits, ASCII letters, [_] and the Latin-1
    alphanumerics U+00AA, U+00B2, U+00B3, U+00B5, U+00B9, U+00BA,
    U+00BC..U+00BE and U+00C0..U+00FF except U+00D7 and U+00F7. *)
Definition is_word_char (c : ascii) : bool :=
  let n := nat_of_ascii c in
  ((48 <=? n) && (n <=? 57)) || ((65 <=? n) && (n <=? 90)) || (n =? 95)
  || ((97 <=? n) && (n <=? 122)) || (n =? 170) || (n =? 178) || (n =? 179)
  || (n =? 181) || (n =? 185) || (n =? 186) || ((188 <=? n) && (n <=? 190))
  || ((192 <=? n) && negb (n =? 215) && negb (n =? 247)).

Definition head_char (s : string) : option ascii :=
  match s with EmptyString => None | String c _ => Some c end.

(** [\b] between the character before a position and the one after it
    ([None] at either end of the text). *)
Definition word_boundary (before after : option ascii) : bool :=
  let w o := match o with Some c => is_word_char c | None => false end in
  xorb (w before) (w after).

(** [[A-Z]] and [[a-z]] under [re.IGNORECASE]: the ASCII letters. *)
Definition is_ascii_letter (c : ascii) : bool :=
  let n := nat_of_ascii c in ((65 <=? n) && (n <=? 90)) || ((97 <=? n) && (n <=? 122)).

(** The literal [kw] under [re.IGNORECASE] at the start of [s]: both
    sides compared lower-cased. Returns the last character consumed
    ([last] if none) and the rest of [s]. The texts of this model are
    strings of code points below U+0100, on which [re.IGNORECASE]
    equates exactly the characters with the same [lower()]; beyond
    U+00FF it also equates U+017F with s, U+0130 and U+0131 with i and
    U+212A with k, which [lower()] does not, and such texts are outside
    this model. *)
Fixpoint ic_match (kw : string) (last : option ascii) (s : string)
    : option (option ascii * string) :=
  match kw, s with
  | EmptyString, _ => Some (last, s)
  | String a kw', String b s' =>
      if Ascii.eqb (py_lower_char a) (py_lower_char b) then ic_match kw' (Some b) s' else None
  | String _ _, EmptyString => None
  end.

(** [[a-z]+:] at the start of [s]. *)
Fixpoint letters_then_colon (s : string) : bool :=
  match s with
  | EmptyString => false
  | String c r => is_ascii_letter c && (starts_with ":" r || letters_then_colon r)
  end.

(** [[A-Z\s]+\n] at the start of [s]. *)
Fixpoint letters_spaces_then_newline (s : string) : bool :=
  match s with
  | EmptyString => false
  | String c r =>
      (is_ascii_letter c || py_isspace c) && (starts_with nl r || letters_spaces_then_newline r)
  end.

(** The lookahead [(?=\n[A-Z][a-z]+:|\n[A-Z][A-Z\s]+\n|$)] at the start
    of [s]; [$] holds at the end of the text and before a final newline. *)
Definition section_end_at (s : string) : bool :=
  match s with
  | EmptyString => true
  | String c r =>
      Ascii.eqb c (ascii_of_nat 10)
      && (match r with
          | String l r' => is_ascii_letter l && (letters_then_colon r' || letters_spaces_then_newline r')
          | EmptyString => false
          end
          || String.eqb r EmptyString)
  end.

(** The lazy [.*?] (with [re.DOTALL]): the shortest prefix of [s] after
    which the lookahead holds. *)
Fixpoint lazy_until_end (s : string) : string :=
  if section_end_at s then EmptyString
  else match s with
       | EmptyString => EmptyString
       | String c r => String c (lazy_until_end r)
       end.

(** The pattern [\b{kw}\b.*?(?=...)] matched at the start of [s], where
    [before] is the character preceding [s] in the text. *)
Definition section_match_at (kw : string) (before : option ascii) (s : string) : option string :=
  if word_boundary before (head_char s) then
    match ic_match kw before s with
    | Some (last, rest) =>
        if word_boundary last (head_char rest)
        then Some (String.append (substring 0 (String.length kw) s) (lazy_until_end rest))
        else None
    | None => None
    end
  else None.

(** [re.search(pattern, text, re.IGNORECASE | re.DOTALL).group(0)]: the
    match at the leftmost position where there is one. *)
Fixpoint search_section (kw : string) (before : option ascii) (s : string) : option string :=
  match section_match_at kw before s with
  | Some m => Some m
  | None => match s with
            | EmptyString => None
            | String c r => search_section kw (Some c) r
            end
  end.

(** [\s*] and [str.lstrip()] *)
Fixpoint lstrip (s : string) : string :=
  match s with
  | EmptyString => EmptyString
  | String c r => if py_isspace c then lstrip r else s
  end.

(** [str.rstrip()] *)
Fixpoint rstrip (s : string) : string :=
  match s with
  | EmptyString => EmptyString
  | String c r =>
      let r' := rstrip r in
      if py_isspace c && String.eqb r' EmptyString then EmptyString else String c r'
  end.

(** [str.strip()] *)
Definition py_strip (s : string) : string := rstrip (lstrip s).

(** [re.sub(rf'^{kw}:?\s*', '', section, flags=re.IGNORECASE)] *)
Definition strip_header (kw section : string) : string :=
  match ic_match kw None section with
  | Some (_, rest) =>
      lstrip (match rest with
              | String c r => if Ascii.eqb c ":" then r else rest
              | EmptyString => rest
              end)
  | None => section
  end.

(** [_extract_section(text, keywords)] on a text of code points below
    U+0100; the keywords are letters and spaces, so [re.escape] leaves
    their meaning unchanged. *)
Fixpoint extract_section (text : string) (keywords : list string) : string :=
  match keywords with
  | [] => EmptyString
  | keyword :: rest =>
      match search_section keyword None text with
      | Some section_text => py_strip (strip_header keyword section_text)
      | None => extract_section text rest
      end
  end.

(** [parse_cv_text]; [extracted_date] is [datetime.now().isoformat()]. *)
Definition parse_cv_text (cv_text extracted_date : string) : list (string * string) :=
  [("career_objective", extract_section cv_text ["objective"; "summary"; "profile"]);
   ("skills", extract_section cv_text ["skills"; "technical skills"; "competencies"]);
   ("educational_institution_name", extract_section cv_text ["education"; "academic background"]);
   ("professional_company_names", extract_section cv_text ["experience"; "work history"; "employment"]);
   ("certifications", extract_section cv_text ["certification"; "licenses"]);
   ("projects", extract_section cv_text ["projects"; "portfolio"]);
   ("raw_text", cv_text);
   ("extracted_date", extracted_date)].

(* ================================================================== *)
(** * Properties *)

(* ------------------------------------------------------------------ *)
(** ** The rules of [_detect_cv_issues], one category each *)

Lemma In_if_singleton (x a : string) (b : bool) :
  In x (if b then [a] else []) <-> x = a /\ b = true.
Proof. destruct b; simpl; intuition congruence. Qed.

Lemma In_if_negb (x a : string) (b : bool) :
  In x (if negb b then [a] else []) <-> x = a /\ b = false.
Proof. destruct b; simpl; intuition congruence. Qed.

Lemma In_if_if_negb (x a : string) (b1 b2 : bool) :
  In x (if b1 then if negb b2 then [a] else [] else []) <->
  x = a /\ b1 = true /\ b2 = false.
Proof. destruct b1, b2; simpl; intuition congruence. Qed.

Lemma In_if_elif (x a : string) (b1 b2 : bool) :
  In x (if b1 then [a] else if b2 then [a] else []) <->
  x = a /\ (b1 = true \/ b2 = true).
Proof. destruct b1, b2; simpl; intuition congruence. Qed.

Lemma In_if_negb_or (x a : string) (b1 b2 : bool) :
  In x (if negb b1 || negb b2 then [a] else []) <->
  x = a /\ (b1 = false \/ b2 = false).
Proof. destruct b1, b2; simpl; intuition congruence. Qed.

Lemma detect_cv_issues_In (x cv_text : string) :
  In x (detect_cv_issues cv_text) <->
    (x = "vague_objective"
     /\ any_in ["seeking"; "looking for"; "opportunity"] (py_lower cv_text) = true
     /\ any_in ["specific"; "specialize"; "expert in"] (py_lower cv_text) = false)
  \/ (x = "no_metrics" /\ re_search metrics_pattern_at cv_text = false)
  \/ (x = "buzzwords"
      /\ 2 <= length (List.filter (fun bw => py_in bw (py_lower cv_text)) buzzword_list))
  \/ (x = "length"
      /\ (length (py_split cv_text) < 200 \/ 1000 < length (py_split cv_text)))
  \/ (x = "formatting"
      /\ (any_in (dict_get EXPECTED_CV_ELEMENTS "skills" []) (py_lower cv_text) = false
          \/ any_in (dict_get EXPECTED_CV_ELEMENTS "experience" []) (py_lower cv_text) = false)).
Proof.
  unfold detect_cv_issues; cbv zeta.
  rewrite !in_app_iff, In_if_if_negb, In_if_negb, In_if_singleton, In_if_elif, In_if_negb_or.
  rewrite Nat.leb_le, Nat.ltb_lt, Nat.ltb_lt.
  reflexivity.
Qed.

(* ------------------------------------------------------------------ *)
(** ** The guarded divisions never raise *)

Lemma Q_of_nat_eq0 (n : nat) : (Q_of_nat n == 0)%Q <-> n = 0.
Proof. unfold Q_of_nat, Qeq; simpl; lia. Qed.

Lemma guarded_nat_div (m n : nat) :
  (if 0 <? n then py_div (Q_of_nat m) (Q_of_nat n) else Some 0%Q)
  = Some (if 0 <? n then Q_of_nat m / Q_of_nat n else 0)%Q.
Proof.
  destruct (0 <? n) eqn:E; [|reflexivity].
  apply Nat.ltb_lt in E. unfold py_div.
  destruct (Qeq_bool _ _) eqn:E'; [|reflexivity].
  apply Qeq_bool_iff, Q_of_nat_eq0 in E'. lia.
Qed.

Lemma guarded_q_div (a s : Q) :
  (if Qgt0_bool s then py_div a s else Some 0%Q)
  = Some (if Qgt0_bool s then a / s else 0)%Q.
Proof.
  unfold Qgt0_bool. destruct (Qle_bool s 0) eqn:E; [reflexivity|]. simpl.
  unfold py_div. destruct (Qeq_bool s 0) eqn:E'; [|reflexivity].
  apply Qeq_bool_iff in E'.
  assert (Qle_bool s 0 = true) by (apply Qle_bool_iff; rewrite E'; apply Qle_refl).
  congruence.
Qed.

(** The full result of [calculate_issue_detection_metrics]: it always
    returns, with the confusion counts of the two sets and the guarded
    ratios. *)
Lemma calculate_issue_detection_metrics_spec (cv_text critique : string)
    (g : option (list string)) :
  let gt := match g with None => detect_cv_issues cv_text | Some l => l end in
  let detected := detect_mentions (py_lower critique) in
  let G : gset string := list_to_set gt in
  let D : gset string := list_to_set detected in
  exists r, calculate_issue_detection_metrics cv_text critique g = Some r
    /\ ground_truth_issues r = gt /\ detected_issues r = detected
    /\ true_positives r = size (G ∩ D) /\ false_positives r = size (D ∖ G)
    /\ false_negatives r = size (G ∖ D)
    /\ missed_issues r = G ∖ D /\ extra_mentions r = D ∖ G
    /\ precision r = (if 0 <? true_positives r + false_positives r
                      then Q_of_nat (true_positives r)
                           / Q_of_nat (true_positives r + false_positives r)
                      else 0)%Q
    /\ recall r = (if 0 <? true_positives r + false_negatives r
                   then Q_of_nat (true_positives r)
                        / Q_of_nat (true_positives r + false_negatives r)
                   else 0)%Q
    /\ f1_score r = (if Qgt0_bool (precision r + recall r)
                     then 2 * (precision r * recall r) / (precision r + recall r)
                     else 0)%Q.
Proof.
  intros gt detected G D.
  unfold calculate_issue_detection_metrics.
  rewrite !guarded_nat_div. unfold mbind, option_bind.
  rewrite guarded_q_div.
  eexists; split; [reflexivity|].
  repeat split.
Qed.

Lemma Qdiv_nat_self (n : nat) : 0 < n -> (Q_of_nat n / Q_of_nat n == 1)%Q.
Proof.
  intros Hn. unfold Qdiv. apply Qmult_inv_r.
  rewrite Q_of_nat_eq0. lia.
Qed.

Lemma calculate_section_coverage_spec (cv_text critique : string) :
  exists cov, calculate_section_coverage cv_text critique = Some cov
    /\ coverage_rate cov =
       (if 0 <? total_sections_in_cv cov
        then Q_of_nat (sections_addressed_in_critique cov)
             / Q_of_nat (total_sections_in_cv cov)
        else 0)%Q.
Proof.
  unfold calculate_section_coverage.
  rewrite guarded_nat_div. unfold mbind, option_bind.
  eexists; split; reflexivity.
Qed.

(* ------------------------------------------------------------------ *)
(** ** Claims about the scorers *)

(** C4: the coverage rate is [covered / total_present] when
    [total_present > 0] and 0 otherwise; precision, recall and F1 are
    their ratios when the denominator is positive and 0 otherwise; the
    metric arithmetic never raises [ZeroDivisionError] (both functions
    always return a result). *)
Theorem metric_ratios_guarded (cv_text critique : string) (g : option (list string)) :
  (exists cov, calculate_section_coverage cv_text critique = Some cov
     /\ coverage_rate cov =
        (if 0 <? total_sections_in_cv cov
         then Q_of_nat (sections_addressed_in_critique cov)
              / Q_of_nat (total_sections_in_cv cov)
         else 0)%Q)
  /\ (exists r, calculate_issue_detection_metrics cv_text critique g = Some r
     /\ precision r = (if 0 <? true_positives r + false_positives r
                       then Q_of_nat (true_positives r)
                            / Q_of_nat (true_positives r + false_positives r)
                       else 0)%Q
     /\ recall r = (if 0 <? true_positives r + false_negatives r
                    then Q_of_nat (true_positives r)
                         / Q_of_nat (true_positives r + false_negatives r)
                    else 0)%Q
     /\ f1_score r = (if Qgt0_bool (precision r + recall r)
                      then 2 * (precision r * recall r) / (precision r + recall r)
                      else 0)%Q).
Proof.
  split; [apply calculate_section_coverage_spec|].
  destruct (calculate_issue_detection_metrics_spec cv_text critique g)
    as (r & Hr & _ & _ & _ & _ & _ & _ & _ & Hp & Hrec & Hf).
  exists r. auto.
Qed.

(** C5: [true_positives + false_negatives] is the size of the
    ground-truth set and [true_positives + false_positives] the size of
    the detected set, for every input. *)
Theorem confusion_counts_partition (cv_text critique : string) (g : option (list string)) :
  exists r, calculate_issue_detection_metrics cv_text critique g = Some r
    /\ true_positives r + false_negatives r
       = size (list_to_set (ground_truth_issues r) : gset string)
    /\ true_positives r + false_positives r
       = size (list_to_set (detected_issues r) : gset string).
Proof.
  destruct (calculate_issue_detection_metrics_spec cv_text critique g)
    as (r & Hr & Hgt & Hdet & Htp & Hfp & Hfn & _).
  exists r. split; [exact Hr|].
  rewrite Hgt, Hdet, Htp, Hfp, Hfn.
  set (G := list_to_set _ : gset string).
  set (D := list_to_set _ : gset string).
  clearbody G D.
  pose proof (size_difference_alt (C:=gset string) G D) as HGD.
  pose proof (size_difference_alt (C:=gset string) D G) as HDG.
  assert (D ∩ G = G ∩ D) as HC by set_solver.
  rewrite HC in HDG. rewrite HGD, HDG.
  pose proof (subseteq_size (C:=gset string) (G ∩ D) G ltac:(set_solver)).
  pose proof (subseteq_size (C:=gset string) (G ∩ D) D ltac:(set_solver)).
  lia.
Qed.

(** C10: with a caller-supplied ground-truth list the result does not
    depend on the document text. *)
Theorem metrics_independent_of_document (d1 d2 critique : string) (gt : list string) :
  calculate_issue_detection_metrics d1 critique (Some gt)
  = calculate_issue_detection_metrics d2 critique (Some gt).
Proof. reflexivity. Qed.

(** C8: when the detected set equals a nonempty ground-truth set,
    precision, recall and F1 are all 1. *)
Theorem perfect_detection_scores (cv_text critique : string) (g : option (list string))
    (r : eval_result) :
  calculate_issue_detection_metrics cv_text critique g = Some r ->
  (list_to_set (ground_truth_issues r) : gset string) ≠ ∅ ->
  (list_to_set (detected_issues r) : gset string)
    = list_to_set (ground_truth_issues r) ->
  (precision r == 1 /\ recall r == 1 /\ f1_score r == 1)%Q.
Proof.
  intros Hcalc Hne Heq.
  destruct (calculate_issue_detection_metrics_spec cv_text critique g)
    as (r' & Hr' & Hgt & Hdet & Htp & Hfp & Hfn & _ & _ & Hp & Hrec & Hf).
  rewrite Hcalc in Hr'. injection Hr' as <-.
  rewrite <- Hgt, <- Hdet in Htp, Hfp, Hfn.
  rewrite Heq in Htp, Hfp, Hfn.
  revert Htp Hfp Hfn Hne.
  generalize (list_to_set (ground_truth_issues r) : gset string) as G.
  intros G Htp Hfp Hfn Hne.
  assert (G ∩ G = G) as HGG by set_solver.
  assert (G ∖ G = ∅) as HGd by set_solver.
  rewrite HGG in Htp. rewrite HGd, (size_empty (C:=gset string)) in Hfp, Hfn.
  assert (0 < size G) as Hpos.
  { destruct (size G) eqn:E; [|lia].
    apply (size_empty_inv (C:=gset string)), leibniz_equiv in E. contradiction. }
  assert (precision r == 1)%Q as HP.
  { rewrite Hp, Htp, Hfp, Nat.add_0_r.
    destruct (0 <? size G) eqn:E; [apply Qdiv_nat_self; lia|apply Nat.ltb_ge in E; lia]. }
  assert (recall r == 1)%Q as HR.
  { rewrite Hrec, Htp, Hfn, Nat.add_0_r.
    destruct (0 <? size G) eqn:E; [apply Qdiv_nat_self; lia|apply Nat.ltb_ge in E; lia]. }
  split; [exact HP|split; [exact HR|]].
  rewrite Hf. unfold Qgt0_bool.
  destruct (Qle_bool (precision r + recall r) 0) eqn:E.
  - apply Qle_bool_iff in E. rewrite HP, HR in E. compute in E. exfalso. apply E. reflexivity.
  - simpl. rewrite HP, HR. reflexivity.
Qed.

(* ------------------------------------------------------------------ *)
(** ** Claims about the ground-truth detector *)

(** C6: an auto-derived ground truth only holds [vague_objective],
    [no_metrics], [buzzwords], [length] or [formatting]; [typos],
    [skill_organization] and [relevance] never occur in it. *)
Theorem auto_ground_truth_categories (cv_text : string) :
  List.Forall (fun x => In x ["vague_objective"; "no_metrics"; "buzzwords"; "length"; "formatting"])
    (detect_cv_issues cv_text)
  /\ ~ In "typos" (detect_cv_issues cv_text)
  /\ ~ In "skill_organization" (detect_cv_issues cv_text)
  /\ ~ In "relevance" (detect_cv_issues cv_text).
Proof.
  split; [apply List.Forall_forall; intros x Hx|split; [|split]; intros Hx];
  apply detect_cv_issues_In in Hx;
  simpl; intuition (subst; try discriminate; auto).
Qed.

(** A document of [n] words: ["word word ... word "]. *)
Fixpoint words (n : nat) : string :=
  match n with
  | 0 => EmptyString
  | S k => String.append "word " (words k)
  end.

(** C7: [length] is in the auto-derived ground truth exactly when the
    word count is below 200 or above 1000; so a 50-word and a 1500-word
    document get it and a 500-word document does not. *)
Theorem length_rule (cv_text : string) :
  (In "length" (detect_cv_issues cv_text)
   <-> length (py_split cv_text) < 200 \/ 1000 < length (py_split cv_text))
  /\ (length (py_split (words 50)) = 50 /\ In "length" (detect_cv_issues (words 50)))
  /\ (length (py_split (words 1500)) = 1500 /\ In "length" (detect_cv_issues (words 1500)))
  /\ (length (py_split (words 500)) = 500 /\ ~ In "length" (detect_cv_issues (words 500))).
Proof.
  assert (Hlen : forall t, In "length" (detect_cv_issues t)
                  <-> length (py_split t) < 200 \/ 1000 < length (py_split t)).
  { intros t. rewrite detect_cv_issues_In. intuition (try discriminate; auto). }
  assert (H50 : length (py_split (words 50)) = 50) by (vm_compute; reflexivity).
  assert (H1500 : length (py_split (words 1500)) = 1500) by (vm_compute; reflexivity).
  assert (H500 : length (py_split (words 500)) = 500) by (vm_compute; reflexivity).
  split; [apply Hlen|].
  split; [split; [exact H50|apply (proj2 (Hlen (words 50))); rewrite H50; lia]|].
  split; [split; [exact H1500|apply (proj2 (Hlen (words 1500))); rewrite H1500; lia]|].
  split; [exact H500|rewrite (Hlen (words 500)), H500; lia].
Qed.

(* ------------------------------------------------------------------ *)
(** ** The metrics regex, position by position *)

Lemma str_app_nil (s : string) : String.append EmptyString s = s.
Proof. reflexivity. Qed.

Lemma str_app_cons (c : ascii) (a s : string) :
  String.append (String c a) s = String c (String.append a s).
Proof. reflexivity. Qed.

Lemma str_app_assoc (a b c : string) :
  String.append (String.append a b) c = String.append a (String.append b c).
Proof.
  induction a as [|x a IH]; rewrite ?str_app_nil, ?str_app_cons; congruence.
Qed.

Lemma re_search_iff (at_pos : string -> bool) (s : string) :
  re_search at_pos s = true <->
  exists pre post, s = String.append pre post /\ at_pos post = true.
Proof.
  induction s as [|c r IH]; simpl; rewrite orb_true_iff.
  - split.
    + intros [H|H]; [exists EmptyString, EmptyString; auto|discriminate].
    + intros (pre & post & Hs & H). destruct pre; [|discriminate].
      rewrite str_app_nil in Hs. subst. auto.
  - rewrite IH. split.
    + intros [H|(pre & post & -> & H)].
      * exists EmptyString, (String c r). auto.
      * exists (String c pre), post. auto.
    + intros (pre & post & Hs & H). destruct pre as [|c' pre].
      * rewrite str_app_nil in Hs. subst. auto.
      * rewrite str_app_cons in Hs. injection Hs as -> ->. right. eauto.
Qed.

Lemma starts_with_iff (p s : string) :
  starts_with p s = true <-> exists post, s = String.append p post.
Proof.
  revert s. induction p as [|a p IH]; intros s; simpl.
  - split; eauto.
  - destruct s as [|b s].
    + split; [discriminate|intros (post & H); discriminate].
    + rewrite andb_true_iff, Ascii.eqb_eq, IH. split.
      * intros (-> & post & ->). eauto.
      * intros (post & H). injection H as -> ->. eauto.
Qed.

Lemma lit_then_digits_iff (p s : string) :
  lit_then_digits p s = true <->
  exists d post, s = String.append p (String d post) /\ is_digit d = true.
Proof.
  revert s. induction p as [|a p IH]; intros s; simpl.
  - destruct s as [|d post].
    + split; [discriminate|intros (d & post & H & _); discriminate].
    + split; [eauto|intros (d' & post' & H & Hd); injection H as -> ->; exact Hd].
  - destruct s as [|b s].
    + split; [discriminate|intros (d & post & H & _); discriminate].
    + rewrite andb_true_iff, Ascii.eqb_eq, IH. split.
      * intros (-> & d & post & -> & Hd). eauto.
      * intros (d & post & H & Hd). injection H as -> ->. eauto.
Qed.

Lemma digits_then_sound (c : ascii) (s : string) :
  digits_then c s = true ->
  exists pre d post, s = String.append pre (String d (String c post)) /\ is_digit d = true.
Proof.
  induction s as [|d r IH]; cbn [digits_then]; [discriminate|].
  rewrite andb_true_iff, orb_true_iff, starts_with_iff.
  intros (Hd & [(post & ->)|H]).
  - exists EmptyString, d, post. auto.
  - destruct (IH H) as (pre & d' & post & -> & Hd').
    exists (String d pre), d', post. auto.
Qed.

Lemma digits_then_at (c d : ascii) (post : string) :
  is_digit d = true -> digits_then c (String d (String c post)) = true.
Proof.
  intros Hd. simpl. rewrite Hd, Ascii.eqb_refl. reflexivity.
Qed.

(** What the regex finds, in plain words: a digit right before [%], a
    digit right before [x], the word [increased], the word [reduced], or
    [improved ] right before a digit; case-sensitive, anywhere. *)
Definition quantified_evidence (s : string) : Prop :=
  (exists pre d post, s = String.append pre (String d (String "%"%char post))
                      /\ is_digit d = true)
  \/ (exists pre d post, s = String.append pre (String d (String "x"%char post))
                         /\ is_digit d = true)
  \/ (exists pre post, s = String.append pre (String.append "increased" post))
  \/ (exists pre post, s = String.append pre (String.append "reduced" post))
  \/ (exists pre d post, s = String.append pre (String.append "improved " (String d post))
                         /\ is_digit d = true).

Lemma metrics_regex_iff (s : string) :
  re_search metrics_pattern_at s = true <-> quantified_evidence s.
Proof.
  rewrite re_search_iff. unfold metrics_pattern_at, quantified_evidence. split.
  - intros (pre & post & -> & H).
    rewrite !orb_true_iff, !starts_with_iff, lit_then_digits_iff in H.
    destruct H as [[[[H|H]|(post' & ->)]|(post' & ->)]|(d & post' & -> & Hd)].
    + left. destruct (digits_then_sound _ _ H) as (pre' & d & post' & -> & Hd).
      exists (String.append pre pre'), d, post'. rewrite str_app_assoc. auto.
    + right; left. destruct (digits_then_sound _ _ H) as (pre' & d & post' & -> & Hd).
      exists (String.append pre pre'), d, post'. rewrite str_app_assoc. auto.
    + right; right; left. eauto.
    + right; right; right; left. eauto.
    + right; right; right; right. eauto.
  - intros [(pre & d & post & -> & Hd)|[(pre & d & post & -> & Hd)|[(pre & post & ->)
           |[(pre & post & ->)|(pre & d & post & -> & Hd)]]]];
      eexists _, _; (split; [reflexivity|]);
      rewrite !orb_true_iff, !starts_with_iff, lit_then_digits_iff.
    + left; left; left; left. apply digits_then_at; exact Hd.
    + left; left; left; right. apply digits_then_at; exact Hd.
    + left; left; right. eauto.
    + left; right. eauto.
    + right. eauto.
Qed.

(** The condition of C3 as its sentence words it: a percentage, a
    multiplier ["Nx"], or one of the verbs [increased], [reduced],
    [improved] followed by a number. *)
Definition claimed_quantified (s : string) : Prop :=
  (exists pre d post, s = String.append pre (String d (String "%"%char post))
                      /\ is_digit d = true)
  \/ (exists pre d post, s = String.append pre (String d (String "x"%char post))
                         /\ is_digit d = true)
  \/ (exists verb pre d post, In verb ["increased"; "reduced"; "improved"]
        /\ s = String.append pre (String.append verb (String " "%char (String d post)))
        /\ is_digit d = true).

Fixpoint has_digit (s : string) : bool :=
  match s with
  | EmptyString => false
  | String c r => is_digit c || has_digit r
  end.

Lemma has_digit_app (a b : string) :
  has_digit (String.append a b) = has_digit a || has_digit b.
Proof.
  induction a as [|c a IH]; rewrite ?str_app_nil, ?str_app_cons; simpl;
    [reflexivity|now rewrite IH, orb_assoc].
Qed.

Lemma claimed_quantified_has_digit (s : string) :
  claimed_quantified s -> has_digit s = true.
Proof.
  intros [(pre & d & post & -> & Hd)|[(pre & d & post & -> & Hd)
         |(verb & pre & d & post & _ & -> & Hd)]];
    rewrite !has_digit_app; simpl; rewrite ?Hd, ?orb_true_r; reflexivity.
Qed.

(** C3 (as stated, refuted): ["increased sales"] has no number at all,
    hence none of the claimed patterns, yet [no_metrics] is not reported
    for it, since the regex accepts [increased] on its own. *)
Lemma no_metrics_rule_counterexample :
  ~ (forall cv_text, In "no_metrics" (detect_cv_issues cv_text)
                     <-> ~ claimed_quantified cv_text).
Proof.
  intros H. specialize (H "increased sales").
  assert (Hn : ~ claimed_quantified "increased sales").
  { intros Hq. apply claimed_quantified_has_digit in Hq. vm_compute in Hq. discriminate. }
  apply H in Hn. vm_compute in Hn. intuition discriminate.
Qed.

(** C3 (amended): [no_metrics] is reported exactly when the original,
    not lower-cased, text contains none of: a digit right before [%], a
    digit right before [x], the word [increased], the word [reduced], or
    [improved ] right before a digit. *)
Theorem no_metrics_rule (cv_text : string) :
  In "no_metrics" (detect_cv_issues cv_text) <-> ~ quantified_evidence cv_text.
Proof.
  rewrite detect_cv_issues_In, <- metrics_regex_iff.
  destruct (re_search metrics_pattern_at cv_text);
    intuition (try discriminate; auto).
Qed.

(* ------------------------------------------------------------------ *)
(** ** [idxmax] and the best-model selection *)

Local Open Scope list_scope.

Lemma lookup_singleton_Some_inv {A} (x y : A) (k : nat) :
  [x] !! k = Some y -> y = x.
Proof. destruct k; simpl; [congruence|discriminate]. Qed.

(** Loop invariant of [idxmax_from]: [bi] holds the first occurrence of
    the maximum [b] of the part [prefix] already scanned. *)
Lemma idxmax_from_spec (l prefix : list Q) (bi : nat) (b : Q) :
  prefix !! bi = Some b ->
  (forall j y, prefix !! j = Some y -> (y <= b)%Q) ->
  (forall j y, j < bi -> prefix !! j = Some y -> (y < b)%Q) ->
  exists m, (prefix ++ l) !! idxmax_from (length prefix) bi b l = Some m
    /\ (forall j y, (prefix ++ l) !! j = Some y -> (y <= m)%Q)
    /\ (forall j y, j < idxmax_from (length prefix) bi b l ->
                    (prefix ++ l) !! j = Some y -> (y < m)%Q).
Proof.
  revert prefix bi b. induction l as [|x r IH]; intros prefix bi b Hbi Hle Hlt.
  - simpl. rewrite app_nil_r. eauto.
  - simpl. replace (S (length prefix)) with (length (prefix ++ [x]))
      by (rewrite length_app; simpl; lia).
    replace (prefix ++ x :: r) with ((prefix ++ [x]) ++ r) by (rewrite <- app_assoc; reflexivity).
    pose proof (lookup_lt_Some _ _ _ Hbi) as Hbilt.
    destruct (Qle_bool x b) eqn:E.
    + apply Qle_bool_iff in E. apply IH.
      * rewrite lookup_app_l; assumption.
      * intros j y [Hj|[_ Hj]]%lookup_app_Some;
          [eauto|apply lookup_singleton_Some_inv in Hj; subst; exact E].
      * intros j y Hj Hy. rewrite lookup_app_l in Hy by lia. eauto.
    + assert (Hbx : (b < x)%Q).
      { apply Qnot_le_lt. intros Hx. apply Qle_bool_iff in Hx. congruence. }
      apply IH.
      * apply list_lookup_middle. reflexivity.
      * intros j y [Hj|[_ Hj]]%lookup_app_Some.
        -- apply Qlt_le_weak, (Qle_lt_trans _ b); eauto.
        -- apply lookup_singleton_Some_inv in Hj; subst; apply Qle_refl.
      * intros j y Hj Hy. rewrite lookup_app_l in Hy by lia.
        apply (Qle_lt_trans _ b); eauto.
Qed.

Lemma idxmax_spec (l : list Q) (i : nat) :
  idxmax l = Some i ->
  exists m, l !! i = Some m
    /\ (forall j y, l !! j = Some y -> (y <= m)%Q)
    /\ (forall j y, j < i -> l !! j = Some y -> (y < m)%Q).
Proof.
  destruct l as [|x r]; simpl; [discriminate|]. intros [= <-].
  apply (idxmax_from_spec r [x] 0 x).
  - reflexivity.
  - intros j y Hj. apply lookup_singleton_Some_inv in Hj. subst. apply Qle_refl.
  - intros j y Hj. lia.
Qed.

Lemma lookup_map_Some {A B} (f : A -> B) (l : list A) (j : nat) (y : B) :
  map f l !! j = Some y <-> exists x, l !! j = Some x /\ y = f x.
Proof.
  revert j. induction l as [|a l IH]; intros [|j]; simpl.
  - split; [discriminate|intros (x & H & _); discriminate].
  - split; [discriminate|intros (x & H & _); discriminate].
  - split; [intros [= <-]; eauto|intros (x & [= ->] & ->); reflexivity].
  - apply IH.
Qed.

Lemma evaluate_all_models_order (cv_text : string) (critiques : list (string * string))
    (g : option (list string)) (rows : list model_row) :
  evaluate_all_models cv_text critiques g = Some rows ->
  map model rows = map fst critiques.
Proof.
  revert rows. induction critiques as [|[name critique] rest IH]; intros rows; simpl.
  - intros [= <-]. reflexivity.
  - unfold mbind, option_bind.
    destruct (calculate_section_coverage cv_text critique); [|discriminate].
    destruct (calculate_issue_detection_metrics cv_text critique g); [|discriminate].
    destruct (evaluate_all_models cv_text rest g) as [rows'|] eqn:E; [|discriminate].
    intros [= <-]. simpl. f_equal. apply IH. reflexivity.
Qed.

(** C9: the selected best model is a row of maximal F1, and every row
    before it has a strictly smaller F1, so among rows sharing the
    maximum the first in insertion order is chosen; the rows follow the
    insertion order of the critiques. *)
Theorem best_model_first_max (cv_text : string) (critiques : list (string * string))
    (g : option (list string)) (rows : list model_row) :
  evaluate_all_models cv_text critiques g = Some rows ->
  critiques <> [] ->
  map model rows = map fst critiques
  /\ exists i best, idxmax (map row_f1_score rows) = Some i
     /\ best_model_row rows = Some best /\ rows !! i = Some best
     /\ (forall r, In r rows -> (row_f1_score r <= row_f1_score best)%Q)
     /\ (forall j r, j < i -> rows !! j = Some r -> (row_f1_score r < row_f1_score best)%Q).
Proof.
  intros Hev Hne.
  pose proof (evaluate_all_models_order _ _ _ _ Hev) as Horder.
  split; [exact Horder|].
  destruct (idxmax (map row_f1_score rows)) as [i|] eqn:Hi.
  - destruct (idxmax_spec _ _ Hi) as (m & Hm & Hle & Hlt).
    apply lookup_map_Some in Hm as (best & Hbest & ->).
    exists i, best. repeat split; auto.
    + unfold best_model_row. rewrite Hi. exact Hbest.
    + intros r Hr. apply list_elem_of_In, list_elem_of_lookup_1 in Hr as (j & Hj).
      apply (Hle j). apply lookup_map_Some. eauto.
    + intros j r Hj Hr. apply (Hlt j); [exact Hj|]. apply lookup_map_Some. eauto.
  - exfalso. destruct rows; [|discriminate].
    destruct critiques; [contradiction|discriminate].
Qed.

(* ------------------------------------------------------------------ *)
(** ** Scenario B and caller-supplied ground truth *)

(** The sample CV of [cv_processor.main] (Scenario A of the spec). *)
Definition scenario_a_cv : string :=
  "Seeking a challenging position in data science. SKILLS: Python, Machine Learning, Data Analysis. EDUCATION: University of Example. WORK EXPERIENCE: Data Analyst at Company XYZ - Analyzed data - Created reports - Worked with team".

(** The mock [medium] critique of [cv_processor.main]. *)
Definition scenario_b_critique : string :=
  "Missing quantifiable results. Experience section is too vague. Skills need organization.".

Definition scenario_ground_truth : list string := ["vague_objective"; "no_metrics"].

(** C1 (as stated, refuted): the critique of Scenario B is not scored
    with one true positive, recall 0.5 and F1 0.667 against
    [{vague_objective, no_metrics}]. *)
Lemma scenario_b_counterexample :
  ~ (exists r, calculate_issue_detection_metrics scenario_a_cv scenario_b_critique
                 (Some scenario_ground_truth) = Some r
       /\ In "no_metrics" (detected_issues r) /\ true_positives r = 1
       /\ (recall r == 1 # 2)%Q /\ (precision r == 1)%Q
       /\ (6665 # 10000 <= f1_score r <= 6675 # 10000)%Q).
Proof.
  intros (r & H & _ & Htp & _).
  vm_compute in H. injection H as <-. vm_compute in Htp. discriminate.
Qed.

(** C1 (amended): the critique of Scenario B mentions [vague_objective]
    (through "vague") and [no_metrics] (through "quantif"), so against
    [{vague_objective, no_metrics}] it has 2 true positives, no false
    positive or negative, and precision = recall = F1 = 1. *)
Theorem scenario_b_scores :
  exists r, calculate_issue_detection_metrics scenario_a_cv scenario_b_critique
              (Some scenario_ground_truth) = Some r
    /\ detected_issues r = ["vague_objective"; "no_metrics"]
    /\ true_positives r = 2 /\ false_positives r = 0 /\ false_negatives r = 0
    /\ (precision r == 1)%Q /\ (recall r == 1)%Q /\ (f1_score r == 1)%Q.
Proof.
  destruct (calculate_issue_detection_metrics scenario_a_cv scenario_b_critique
              (Some scenario_ground_truth)) as [r|] eqn:E;
    vm_compute in E; [|discriminate].
  injection E as <-. eexists. split; [reflexivity|].
  vm_compute. repeat split; reflexivity.
Qed.

Lemma detect_mentions_taxonomy (critique_lower x : string) :
  In x (detect_mentions critique_lower) -> In x (map fst COMMON_CV_ISSUES).
Proof.
  unfold detect_mentions. rewrite !in_map_iff.
  intros (p & <- & Hp). apply filter_In in Hp as [Hp _]. eauto.
Qed.

(** C2 (as stated, refuted): a ground-truth list holding an identifier
    outside the taxonomy is not rejected; the identifier ends up in the
    result's ground-truth list. *)
Lemma unknown_ground_truth_counterexample :
  exists r, calculate_issue_detection_metrics "" "" (Some ["not_a_category"]) = Some r
    /\ In "not_a_category" (ground_truth_issues r)
    /\ ~ In "not_a_category" (map fst COMMON_CV_ISSUES).
Proof.
  destruct (calculate_issue_detection_metrics "" "" (Some ["not_a_category"])) as [r|] eqn:E;
    vm_compute in E; [|discriminate].
  injection E as <-. eexists. split; [reflexivity|].
  split; [left; reflexivity|]. simpl. intuition discriminate.
Qed.

(** C2 (amended): a caller-supplied ground-truth list is not validated.
    The scorer always returns a result whose ground-truth list is the
    caller's list unchanged. Only the detected list is guaranteed to lie
    within the taxonomy; an identifier outside it is never detected, so
    it is always a missed issue (a false negative). *)
Theorem unknown_ground_truth_accepted (cv_text critique : string) (gt : list string) :
  exists r, calculate_issue_detection_metrics cv_text critique (Some gt) = Some r
    /\ ground_truth_issues r = gt
    /\ List.Forall (fun x => In x (map fst COMMON_CV_ISSUES)) (detected_issues r)
    /\ (forall x, In x gt -> ~ In x (map fst COMMON_CV_ISSUES) ->
          x ∈ missed_issues r /\ ~ In x (detected_issues r)).
Proof.
  destruct (calculate_issue_detection_metrics_spec cv_text critique (Some gt))
    as (r & Hr & Hgt & Hdet & _ & _ & _ & Hmiss & _).
  exists r. split; [exact Hr|]. split; [exact Hgt|]. split.
  { apply List.Forall_forall. intros x Hx. rewrite Hdet in Hx.
    eapply detect_mentions_taxonomy; exact Hx. }
  intros x Hx Hnot.
  assert (Hnd : ~ In x (detected_issues r)).
  { rewrite Hdet. intros H. apply Hnot. eapply detect_mentions_taxonomy; exact H. }
  split; [|exact Hnd].
  rewrite Hmiss, elem_of_difference, !elem_of_list_to_set, !list_elem_of_In.
  rewrite Hdet in Hnd. auto.
Qed.

(* ------------------------------------------------------------------ *)
(** ** Instances of the theorems with hypotheses *)

(** The mock critiques of [cv_processor.main], in insertion order. *)
Definition main_critiques : list (string * string) :=
  [("gentle", "Your CV shows good foundation. Consider adding metrics to quantify achievements.");
   ("medium", scenario_b_critique);
   ("brutal", "Generic buzzwords everywhere. 'Analyzed data' - what data? How? This needs metrics.")].

Lemma perfect_detection_scores_witness :
  exists r, calculate_issue_detection_metrics scenario_a_cv scenario_b_critique
              (Some scenario_ground_truth) = Some r
    /\ (list_to_set (ground_truth_issues r) : gset string) ≠ ∅
    /\ (list_to_set (detected_issues r) : gset string) = list_to_set (ground_truth_issues r)
    /\ (precision r == 1 /\ recall r == 1 /\ f1_score r == 1)%Q.
Proof.
  eexists. split; [vm_compute; reflexivity|].
  split; [apply (bool_decide_unpack _); vm_compute; exact I|].
  split; [vm_compute; reflexivity|].
  apply (perfect_detection_scores scenario_a_cv scenario_b_critique (Some scenario_ground_truth));
    [vm_compute; reflexivity|apply (bool_decide_unpack _); vm_compute; exact I
    |vm_compute; reflexivity].
Defined.

Lemma best_model_first_max_witness :
  exists rows, evaluate_all_models scenario_a_cv main_critiques None = Some rows
    /\ main_critiques <> []
    /\ map model rows = map fst main_critiques
    /\ exists i best, idxmax (map row_f1_score rows) = Some i
       /\ best_model_row rows = Some best /\ rows !! i = Some best
       /\ (forall r, In r rows -> (row_f1_score r <= row_f1_score best)%Q)
       /\ (forall j r, j < i -> rows !! j = Some r -> (row_f1_score r < row_f1_score best)%Q).
Proof.
  eexists. split; [vm_compute; reflexivity|].
  split; [discriminate|].
  apply (best_model_first_max scenario_a_cv main_critiques None);
    [vm_compute; reflexivity|discriminate].
Defined.

(* ================================================================== *)
(** * Further properties of the scorers, the detector and the scripts *)

(* ------------------------------------------------------------------ *)
(** ** Arithmetic of the guarded ratios *)

Lemma Q_of_nat_nonneg (n : nat) : (0 <= Q_of_nat n)%Q.
Proof. unfold Q_of_nat, Qle; simpl; lia. Qed.

Lemma Q_of_nat_le (m n : nat) : m <= n -> (Q_of_nat m <= Q_of_nat n)%Q.
Proof. unfold Q_of_nat, Qle; simpl; lia. Qed.

Lemma Q_of_nat_pos (n : nat) : 0 < n -> (0 < Q_of_nat n)%Q.
Proof. unfold Q_of_nat, Qlt; simpl; lia. Qed.

Lemma Q_of_nat_add (m n : nat) : (Q_of_nat (m + n) == Q_of_nat m + Q_of_nat n)%Q.
Proof. unfold Q_of_nat. rewrite Nat2Z.inj_add, inject_Z_plus. reflexivity. Qed.

Lemma Qgt0_bool_true (s : Q) : Qgt0_bool s = true -> (0 < s)%Q.
Proof.
  unfold Qgt0_bool. destruct (Qle_bool s 0) eqn:E; [discriminate|]. intros _.
  apply Qnot_le_lt. intros H. apply Qle_bool_iff in H. congruence.
Qed.

Lemma Qgt0_bool_false (s : Q) : Qgt0_bool s = false -> (s <= 0)%Q.
Proof.
  unfold Qgt0_bool. destruct (Qle_bool s 0) eqn:E; [|discriminate]. intros _.
  apply Qle_bool_iff. exact E.
Qed.

Lemma guarded_ratio_unit (m n : nat) :
  m <= n -> (0 <= (if 0 <? n then Q_of_nat m / Q_of_nat n else 0) <= 1)%Q.
Proof.
  intros H. destruct (0 <? n) eqn:E.
  - apply Nat.ltb_lt in E. pose proof (Q_of_nat_pos n E) as Hn. split.
    + apply Qle_shift_div_l; [exact Hn|]. rewrite Qmult_0_l. apply Q_of_nat_nonneg.
    + apply Qle_shift_div_r; [exact Hn|]. rewrite Qmult_1_l. apply Q_of_nat_le. exact H.
  - split; unfold Qle; simpl; lia.
Qed.

Lemma guarded_f1_unit (p r : Q) :
  (0 <= p <= 1)%Q -> (0 <= r <= 1)%Q ->
  (0 <= (if Qgt0_bool (p + r) then 2 * (p * r) / (p + r) else 0) <= 1)%Q.
Proof.
  intros [Hp0 Hp1] [Hr0 Hr1]. destruct (Qgt0_bool (p + r)) eqn:E.
  - apply Qgt0_bool_true in E. split.
    + apply Qle_shift_div_l; [exact E|]. nra.
    + apply Qle_shift_div_r; [exact E|]. nra.
  - split; unfold Qle; simpl; lia.
Qed.

(** Sizes of the three parts of two finite sets. *)
Lemma confusion_sizes (G D : gset string) :
  size (G ∩ D) + size (D ∖ G) = size D /\ size (G ∩ D) + size (G ∖ D) = size G.
Proof.
  pose proof (size_difference_alt (C:=gset string) G D) as HGD.
  pose proof (size_difference_alt (C:=gset string) D G) as HDG.
  assert (D ∩ G = G ∩ D) as HC by set_solver.
  rewrite HC in HDG. rewrite HGD, HDG.
  pose proof (subseteq_size (C:=gset string) (G ∩ D) G ltac:(set_solver)).
  pose proof (subseteq_size (C:=gset string) (G ∩ D) D ltac:(set_solver)).
  lia.
Qed.

(* ------------------------------------------------------------------ *)
(** ** [calculate_issue_detection_metrics] *)

(** Precision, recall and F1 always lie between 0 and 1. *)
Theorem detection_metrics_in_unit_interval (cv_text critique : string)
    (g : option (list string)) :
  exists r, calculate_issue_detection_metrics cv_text critique g = Some r
    /\ (0 <= precision r <= 1)%Q /\ (0 <= recall r <= 1)%Q /\ (0 <= f1_score r <= 1)%Q.
Proof.
  destruct (calculate_issue_detection_metrics_spec cv_text critique g)
    as (r & Hr & _ & _ & _ & _ & _ & _ & _ & Hp & Hrec & Hf).
  exists r. split; [exact Hr|].
  assert (HP : (0 <= precision r <= 1)%Q) by (rewrite Hp; apply guarded_ratio_unit; lia).
  assert (HR : (0 <= recall r <= 1)%Q) by (rewrite Hrec; apply guarded_ratio_unit; lia).
  split; [exact HP|split; [exact HR|]].
  rewrite Hf. apply guarded_f1_unit; assumption.
Qed.

Lemma gset_inter_empty_l (X : gset string) : ∅ ∩ X = ∅.
Proof. set_solver. Qed.

Lemma gset_inter_empty_r (X : gset string) : X ∩ ∅ = ∅.
Proof. set_solver. Qed.

(** When TP = 0 every score is 0. *)
Lemma zero_tp_scores (r : eval_result) :
  precision r = (if 0 <? true_positives r + false_positives r
                 then Q_of_nat (true_positives r)
                      / Q_of_nat (true_positives r + false_positives r)
                 else 0)%Q ->
  recall r = (if 0 <? true_positives r + false_negatives r
              then Q_of_nat (true_positives r)
                   / Q_of_nat (true_positives r + false_negatives r)
              else 0)%Q ->
  f1_score r = (if Qgt0_bool (precision r + recall r)
                then 2 * (precision r * recall r) / (precision r + recall r)
                else 0)%Q ->
  true_positives r = 0 ->
  (precision r == 0 /\ recall r == 0 /\ f1_score r == 0)%Q.
Proof.
  intros Hp Hrec Hf H0.
  assert (Hz : forall n, ((if 0 <? 0 + n then Q_of_nat 0 / Q_of_nat (0 + n) else 0) == 0)%Q).
  { intros n. destruct (0 <? 0 + n); [|reflexivity]. unfold Qdiv. apply Qmult_0_l. }
  rewrite H0 in Hp, Hrec.
  assert (HP : (precision r == 0)%Q) by (rewrite Hp; apply Hz).
  assert (HR : (recall r == 0)%Q) by (rewrite Hrec; apply Hz).
  split; [exact HP|split; [exact HR|]].
  rewrite Hf. destruct (Qgt0_bool _) eqn:E; [|reflexivity].
  apply Qgt0_bool_true in E. rewrite HP, HR in E. discriminate E.
Qed.

Lemma filter_map_sublist {A B} (f : A -> B) (P : A -> bool) (l : list A) :
  map f (List.filter P l) `sublist_of` map f l.
Proof.
  induction l as [|a l IH]; simpl; [constructor|].
  destruct (P a); simpl; constructor; exact IH.
Qed.

Lemma detect_mentions_sublist (critique_lower : string) :
  detect_mentions critique_lower `sublist_of` map fst COMMON_CV_ISSUES.
Proof. apply filter_map_sublist. Qed.

Lemma detect_mentions_NoDup (critique_lower : string) :
  NoDup (detect_mentions critique_lower).
Proof.
  eapply sublist_NoDup; [|apply detect_mentions_sublist].
  apply (bool_decide_unpack _); vm_compute; exact I.
Qed.

Lemma detect_mentions_In (x critique_lower : string) :
  In x (detect_mentions critique_lower) <->
  exists kws, In (x, kws) COMMON_CV_ISSUES /\ any_in kws critique_lower = true.
Proof.
  unfold detect_mentions. rewrite in_map_iff. split.
  - intros ([y kws] & <- & Hp). apply filter_In in Hp as [Hin Hany]. eauto.
  - intros (kws & Hin & Hany). exists (x, kws). split; [reflexivity|].
    apply filter_In. auto.
Qed.

(** The detected categories are distinct, listed in the order of the
    taxonomy, and TP + FP is their number. *)
Theorem detected_issues_in_taxonomy_order (cv_text critique : string)
    (g : option (list string)) :
  exists r, calculate_issue_detection_metrics cv_text critique g = Some r
    /\ detected_issues r `sublist_of` map fst COMMON_CV_ISSUES
    /\ NoDup (detected_issues r)
    /\ true_positives r + false_positives r = length (detected_issues r).
Proof.
  destruct (calculate_issue_detection_metrics_spec cv_text critique g)
    as (r & Hr & Hgt & Hdet & Htp & Hfp & _).
  exists r. split; [exact Hr|]. rewrite Hdet.
  split; [apply detect_mentions_sublist|]. split; [apply detect_mentions_NoDup|].
  rewrite Htp, Hfp.
  rewrite <- (size_list_to_set (C:=gset string) _ (detect_mentions_NoDup _)).
  apply confusion_sizes.
Qed.

(** An empty ground-truth list: nothing is a true positive or a missed
    issue, every detected category is a false positive, and precision,
    recall and F1 are 0. *)
Theorem empty_ground_truth_scores (cv_text critique : string) :
  exists r, calculate_issue_detection_metrics cv_text critique (Some []) = Some r
    /\ true_positives r = 0 /\ false_negatives r = 0
    /\ false_positives r = length (detected_issues r)
    /\ (precision r == 0 /\ recall r == 0 /\ f1_score r == 0)%Q.
Proof.
  destruct (calculate_issue_detection_metrics_spec cv_text critique (Some []))
    as (r & Hr & Hgt & Hdet & Htp & Hfp & Hfn & _ & _ & Hp & Hrec & Hf).
  exists r. split; [exact Hr|].
  assert (HG : (list_to_set [] : gset string) = ∅) by reflexivity.
  rewrite HG in Htp, Hfp, Hfn.
  assert (H0 : true_positives r = 0).
  { rewrite Htp, gset_inter_empty_l. apply (size_empty (C:=gset string)). }
  split; [exact H0|]. split.
  { rewrite Hfn, empty_difference_L. apply (size_empty (C:=gset string)). }
  split.
  { rewrite Hfp, Hdet, difference_empty_L.
    apply (size_list_to_set (C:=gset string)), detect_mentions_NoDup. }
  apply zero_tp_scores; assumption.
Qed.

(** A critique that contains no keyword of any category detects nothing:
    TP = FP = 0, every distinct ground-truth issue is missed, and
    precision, recall and F1 are 0. *)
Theorem silent_critique_scores (cv_text critique : string) (g : option (list string)) :
  List.Forall (fun '(_, kws) => any_in kws (py_lower critique) = false) COMMON_CV_ISSUES ->
  exists r, calculate_issue_detection_metrics cv_text critique g = Some r
    /\ detected_issues r = [] /\ true_positives r = 0 /\ false_positives r = 0
    /\ false_negatives r = size (list_to_set (ground_truth_issues r) : gset string)
    /\ (precision r == 0 /\ recall r == 0 /\ f1_score r == 0)%Q.
Proof.
  intros Hsilent.
  destruct (calculate_issue_detection_metrics_spec cv_text critique g)
    as (r & Hr & Hgt & Hdet & Htp & Hfp & Hfn & _ & _ & Hp & Hrec & Hf).
  assert (Hnone : detect_mentions (py_lower critique) = []).
  { destruct (detect_mentions (py_lower critique)) as [|x l] eqn:E; [reflexivity|].
    exfalso. assert (Hx : In x (detect_mentions (py_lower critique))) by (rewrite E; left; reflexivity).
    apply detect_mentions_In in Hx as (kws & Hin & Hany).
    rewrite List.Forall_forall in Hsilent. specialize (Hsilent _ Hin). simpl in Hsilent. congruence. }
  rewrite Hnone in Hdet.
  assert (HD : (list_to_set (detect_mentions (py_lower critique)) : gset string) = ∅)
    by (rewrite Hnone; reflexivity).
  exists r. split; [exact Hr|]. split; [exact Hdet|].
  rewrite HD in Htp, Hfp, Hfn. rewrite <- Hgt in Htp, Hfp, Hfn.
  assert (H0 : true_positives r = 0).
  { rewrite Htp, gset_inter_empty_r. apply (size_empty (C:=gset string)). }
  split; [exact H0|]. split.
  { rewrite Hfp, empty_difference_L. apply (size_empty (C:=gset string)). }
  split.
  { rewrite Hfn, difference_empty_L. reflexivity. }
  apply zero_tp_scores; assumption.
Qed.

(* ------------------------------------------------------------------ *)
(** ** Letter case *)

Lemma py_isspace_lower_char (c : ascii) : py_isspace (py_lower_char c) = py_isspace c.
Proof.
  destruct c as [[] [] [] [] [] [] [] []]; vm_compute; reflexivity.
Qed.

Lemma py_lower_empty_iff (s : string) : py_lower s = EmptyString <-> s = EmptyString.
Proof. destruct s; simpl; split; congruence. Qed.

Lemma py_split_aux_lower (s : string) :
  py_split_aux (py_lower s) = (py_lower (fst (py_split_aux s)), map py_lower (snd (py_split_aux s))).
Proof.
  induction s as [|c r IH]; [reflexivity|].
  simpl. rewrite IH. rewrite py_isspace_lower_char.
  destruct (py_split_aux r) as [w ws]. simpl.
  destruct (py_isspace c); [|reflexivity]. simpl.
  destruct w; reflexivity.
Qed.

Lemma py_split_lower (s : string) : py_split (py_lower s) = map py_lower (py_split s).
Proof.
  unfold py_split. rewrite py_split_aux_lower.
  destruct (py_split_aux s) as [w ws]. simpl. destruct w; reflexivity.
Qed.

(** [str.lower] never changes the word count of [str.split()]. *)
Lemma py_split_length_lower (s : string) :
  length (py_split (py_lower s)) = length (py_split s).
Proof. rewrite py_split_lower. apply length_map. Qed.

(** Critiques that differ only in letter case get the same rows from
    [evaluate_all_models]: coverage, detection and word count all read
    the critique case-insensitively. *)
Theorem evaluate_all_models_case_insensitive (cv_text : string)
    (cs1 cs2 : list (string * string)) (g : option (list string)) :
  List.Forall2 (fun p1 p2 => fst p1 = fst p2 /\ py_lower (snd p1) = py_lower (snd p2)) cs1 cs2 ->
  evaluate_all_models cv_text cs1 g = evaluate_all_models cv_text cs2 g.
Proof.
  induction 1 as [|[m1 c1] [m2 c2] l1 l2 [Hm Hc] _ IH]; [reflexivity|].
  simpl in Hm, Hc |- *. subst m2.
  assert (Hcov : calculate_section_coverage cv_text c1 = calculate_section_coverage cv_text c2)
    by (unfold calculate_section_coverage; rewrite Hc; reflexivity).
  assert (Hdet : calculate_issue_detection_metrics cv_text c1 g
                 = calculate_issue_detection_metrics cv_text c2 g)
    by (unfold calculate_issue_detection_metrics; rewrite Hc; reflexivity).
  assert (Hlen : length (py_split c1) = length (py_split c2))
    by (rewrite <- (py_split_length_lower c1), <- (py_split_length_lower c2), Hc; reflexivity).
  rewrite Hcov, Hdet, IH, Hlen. reflexivity.
Qed.

(* ------------------------------------------------------------------ *)
(** ** The [clichÃ©] keyword never fires *)

(** [c in s] for one character. *)
Fixpoint str_has (c : ascii) (s : string) : bool :=
  match s with
  | EmptyString => false
  | String d r => Ascii.eqb c d || str_has c r
  end.

Lemma py_lower_char_not_195 (c : ascii) : Ascii.eqb (ascii_of_nat 195) (py_lower_char c) = false.
Proof. destruct c as [[] [] [] [] [] [] [] []]; vm_compute; reflexivity. Qed.

Lemma py_lower_no_195 (s : string) : str_has (ascii_of_nat 195) (py_lower s) = false.
Proof.
  induction s as [|c r IH]; [reflexivity|]. cbn [str_has py_lower]. rewrite py_lower_char_not_195. exact IH.
Qed.

Lemma starts_with_has (c : ascii) (p s : string) :
  starts_with p s = true -> str_has c p = true -> str_has c s = true.
Proof.
  revert s. induction p as [|a p IH]; intros s Hs Hc; [discriminate|].
  destruct s as [|b s]; [discriminate|]. simpl in *.
  apply andb_true_iff in Hs as [Hab Hs]. apply Ascii.eqb_eq in Hab. subst b.
  apply orb_true_iff in Hc as [Hc|Hc]; [rewrite Hc; reflexivity|].
  rewrite (IH s Hs Hc). apply orb_true_r.
Qed.

Lemma py_in_has (c : ascii) (p s : string) :
  py_in p s = true -> str_has c p = true -> str_has c s = true.
Proof.
  induction s as [|d s IH]; intros Hin Hc; simpl in Hin.
  - destruct p; [discriminate|]. simpl in Hin. discriminate.
  - apply orb_true_iff in Hin as [Hin|Hin].
    + exact (starts_with_has c p (String d s) Hin Hc).
    + simpl. rewrite (IH Hin Hc). apply orb_true_r.
Qed.

(** The key [clichÃ©] holds U+00C3, which no lower-cased text contains:
    [buzzwords] is detected exactly when the lower-cased critique
    contains "buzzword", "jargon" or "overused"; the word "cliché"
    itself never triggers it. *)
Theorem buzzwords_mention_triggers (cv_text critique : string) (g : option (list string)) :
  exists r, calculate_issue_detection_metrics cv_text critique g = Some r
    /\ (In "buzzwords" (detected_issues r)
        <-> any_in ["buzzword"; "jargon"; "overused"] (py_lower critique) = true)
    /\ py_in cliche_mojibake (py_lower critique) = false.
Proof.
  destruct (calculate_issue_detection_metrics_spec cv_text critique g)
    as (r & Hr & _ & Hdet & _).
  exists r. split; [exact Hr|]. rewrite Hdet, detect_mentions_In.
  assert (Hc : py_in cliche_mojibake (py_lower critique) = false).
  { destruct (py_in cliche_mojibake (py_lower critique)) eqn:E; [|reflexivity].
    pose proof (py_in_has (ascii_of_nat 195) _ _ E ltac:(vm_compute; reflexivity)) as H.
    rewrite py_lower_no_195 in H. discriminate. }
  split; [split|exact Hc].
  - intros (kws & Hin & Hany). simpl in Hin.
    repeat (destruct Hin as [Hin|Hin]; [injection Hin as Hin; discriminate || subst kws|]);
      [|contradiction].
    unfold any_in in *. simpl in *. rewrite Hc in Hany. revert Hany.
    destruct (py_in "buzzword" _), (py_in "jargon" _), (py_in "overused" _); simpl; congruence.
  - intros Hany. exists ["buzzword"; cliche_mojibake; "jargon"; "overused"].
    split; [simpl; tauto|].
    unfold any_in in *. simpl in *. rewrite Hc. revert Hany.
    destruct (py_in "buzzword" _), (py_in "jargon" _), (py_in "overused" _); simpl; congruence.
Qed.

(* ------------------------------------------------------------------ *)
(** ** [calculate_section_coverage] *)

Lemma covered_count_le (f : string -> bool) (l : list (string * bool)) :
  length (List.filter (fun '(section, b) => b && f section) l)
    <= list_sum (map (fun '(_, b) => Nat.b2n b) l)
  /\ list_sum (map (fun '(_, b) => Nat.b2n b) l) <= length l.
Proof.
  induction l as [|[s b] l IH]; simpl; [lia|].
  destruct b, (f s); simpl; lia.
Qed.

Lemma covered_count_eq (f : string -> bool) (l : list (string * bool)) :
  length (List.filter (fun '(section, b) => b && f section) l)
    = list_sum (map (fun '(_, b) => Nat.b2n b) l)
  <-> (forall section, In (section, true) l -> f section = true).
Proof.
  induction l as [|[s b] l IH]; simpl.
  - split; [intros _ ? []|reflexivity].
  - pose proof (proj1 (covered_count_le f l)) as Hle.
    destruct b, (f s) eqn:E; simpl.
    + split.
      * intros Heq x [Hx|Hx]; [injection Hx as <-; exact E|]. apply IH; [lia|exact Hx].
      * intros H. f_equal. apply IH. intros x Hx. apply H. right. exact Hx.
    + split; [lia|]. intros H. specialize (H s (or_introl eq_refl)). congruence.
    + rewrite IH. split; intros H x Hx; [|apply H; right; exact Hx].
      destruct Hx as [Hx|Hx]; [discriminate|]. apply H. exact Hx.
    + rewrite IH. split; intros H x Hx; [|apply H; right; exact Hx].
      destruct Hx as [Hx|Hx]; [discriminate|]. apply H. exact Hx.
Qed.

Lemma calculate_section_coverage_full_spec (cv_text critique : string) :
  exists cov, calculate_section_coverage cv_text critique = Some cov
    /\ sections_present cov
       = map (fun '(section, keywords) => (section, any_in keywords (py_lower cv_text)))
             EXPECTED_CV_ELEMENTS
    /\ sections_covered cov
       = map (fun '(section, keywords) => (section, any_in keywords (py_lower critique)))
             EXPECTED_CV_ELEMENTS
    /\ total_sections_in_cv cov
       = list_sum (map (fun '(_, b) => Nat.b2n b) (sections_present cov))
    /\ sections_addressed_in_critique cov
       = length (List.filter (fun '(section, b) => b && dict_get (sections_covered cov) section false)
                             (sections_present cov))
    /\ coverage_rate cov =
       (if 0 <? total_sections_in_cv cov
        then Q_of_nat (sections_addressed_in_critique cov)
             / Q_of_nat (total_sections_in_cv cov)
        else 0)%Q.
Proof.
  unfold calculate_section_coverage.
  rewrite guarded_nat_div. unfold mbind, option_bind.
  eexists; split; [reflexivity|]. repeat split.
Qed.

(** The coverage numbers are consistent: at most 7 sections are present,
    no more sections are addressed than present, and the rate lies
    between 0 and 1. *)
Theorem coverage_bounds (cv_text critique : string) :
  exists cov, calculate_section_coverage cv_text critique = Some cov
    /\ sections_addressed_in_critique cov <= total_sections_in_cv cov
    /\ total_sections_in_cv cov <= 7
    /\ (0 <= coverage_rate cov <= 1)%Q.
Proof.
  destruct (calculate_section_coverage_full_spec cv_text critique)
    as (cov & Hc & Hp & _ & Ht & Ha & Hr).
  exists cov. split; [exact Hc|].
  pose proof (covered_count_le (fun section => dict_get (sections_covered cov) section false)
                (sections_present cov)) as [H1 H2].
  rewrite <- Ha, <- Ht in *.
  assert (H7 : length (sections_present cov) = 7) by (rewrite Hp, length_map; reflexivity).
  split; [exact H1|]. split; [lia|].
  rewrite Hr. apply guarded_ratio_unit. exact H1.
Qed.

Lemma Qdiv_nat_eq1 (c t : nat) : 0 < t -> (Q_of_nat c / Q_of_nat t == 1)%Q <-> c = t.
Proof.
  intros Ht. split.
  - intros H.
    assert (E : (Q_of_nat c == Q_of_nat c / Q_of_nat t * Q_of_nat t)%Q)
      by (field; rewrite Q_of_nat_eq0; lia).
    rewrite H, Qmult_1_l in E. unfold Q_of_nat, Qeq in E. simpl in E. lia.
  - intros ->. apply Qdiv_nat_self. exact Ht.
Qed.

Lemma dict_get_expected_sections (h : list string -> bool) (section : string) (kws : list string) :
  In (section, kws) EXPECTED_CV_ELEMENTS ->
  dict_get (map (fun '(s, keywords) => (s, h keywords)) EXPECTED_CV_ELEMENTS) section false = h kws.
Proof.
  intros Hin. simpl in Hin.
  repeat (destruct Hin as [Hin|Hin]; [injection Hin as <- <-; reflexivity|]). contradiction.
Qed.

(** Full coverage: the rate is 1 exactly when the CV has at least one
    recognised section and the critique mentions every section the CV
    has. *)
Theorem coverage_rate_one_iff (cv_text critique : string) :
  exists cov, calculate_section_coverage cv_text critique = Some cov
    /\ ((coverage_rate cov == 1)%Q
        <-> 0 < total_sections_in_cv cov
            /\ forall section kws, In (section, kws) EXPECTED_CV_ELEMENTS ->
                 any_in kws (py_lower cv_text) = true ->
                 any_in kws (py_lower critique) = true).
Proof.
  destruct (calculate_section_coverage_full_spec cv_text critique)
    as (cov & Hc & Hp & Hcv & Ht & Ha & Hr).
  exists cov. split; [exact Hc|].
  assert (Hall : sections_addressed_in_critique cov = total_sections_in_cv cov
                 <-> forall section kws, In (section, kws) EXPECTED_CV_ELEMENTS ->
                       any_in kws (py_lower cv_text) = true ->
                       any_in kws (py_lower critique) = true).
  { rewrite Ha, Ht, covered_count_eq, Hcv, Hp. split.
    - intros H section kws Hin Hany.
      rewrite <- (dict_get_expected_sections (fun k => any_in k (py_lower critique)) _ _ Hin).
      apply H. apply in_map_iff. exists (section, kws). rewrite Hany. auto.
    - intros H section Hin. apply in_map_iff in Hin as ([s kws] & Hs & Hin').
      injection Hs as -> Hany.
      rewrite (dict_get_expected_sections (fun k => any_in k (py_lower critique)) _ _ Hin').
      apply (H section kws Hin' Hany). }
  rewrite <- Hall, Hr.
  destruct (0 <? total_sections_in_cv cov) eqn:E.
  - apply Nat.ltb_lt in E. rewrite Qdiv_nat_eq1 by exact E. tauto.
  - apply Nat.ltb_ge in E. split; [intros H; discriminate H|lia].
Qed.

(* ------------------------------------------------------------------ *)
(** ** [_detect_cv_issues] *)

(** Each auto-detected issue is reported at most once, always in the
    order vague_objective, no_metrics, buzzwords, length, formatting. *)
Theorem detect_cv_issues_fixed_order (cv_text : string) :
  detect_cv_issues cv_text
    `sublist_of` ["vague_objective"; "no_metrics"; "buzzwords"; "length"; "formatting"]
  /\ NoDup (detect_cv_issues cv_text).
Proof.
  assert (H : detect_cv_issues cv_text
                `sublist_of` ["vague_objective"; "no_metrics"; "buzzwords"; "length"; "formatting"]).
  { unfold detect_cv_issues; cbv zeta.
    repeat match goal with |- context [if ?b then _ else _] => destruct b end;
      simpl; repeat constructor. }
  split; [exact H|].
  eapply sublist_NoDup; [|exact H].
  apply (bool_decide_unpack _); vm_compute; exact I.
Qed.

(** Only the metrics rule reads the original letter case: two CV texts
    that are equal after [lower()] get the same issues apart from
    [no_metrics]. *)
Theorem detect_cv_issues_case_insensitive_but_metrics (t1 t2 : string) :
  py_lower t1 = py_lower t2 ->
  List.filter (fun x => negb (String.eqb x "no_metrics")) (detect_cv_issues t1)
  = List.filter (fun x => negb (String.eqb x "no_metrics")) (detect_cv_issues t2).
Proof.
  intros H.
  assert (Hlen : length (py_split t1) = length (py_split t2))
    by (rewrite <- (py_split_length_lower t1), <- (py_split_length_lower t2), H; reflexivity).
  assert (Hnm : forall b, List.filter (fun x => negb (String.eqb x "no_metrics"))
                            (if negb b then ["no_metrics"] else []) = []).
  { intros []; reflexivity. }
  unfold detect_cv_issues; cbv zeta. rewrite H, Hlen, !List.filter_app, !Hnm.
  reflexivity.
Qed.

(* ------------------------------------------------------------------ *)
(** ** [evaluate_all_models] and steps 4-5 of [process_new_cv.main] *)

(** [evaluate_all_models] always returns one row per critique, in order,
    and row [i] holds the coverage and detection scores of critique [i]
    and its word count. *)
Theorem evaluate_all_models_rows (cv_text : string) (critiques : list (string * string))
    (g : option (list string)) :
  exists rows, evaluate_all_models cv_text critiques g = Some rows
    /\ length rows = length critiques
    /\ forall i model_name critique, critiques !! i = Some (model_name, critique) ->
         exists cov det,
           calculate_section_coverage cv_text critique = Some cov
           /\ calculate_issue_detection_metrics cv_text critique g = Some det
           /\ rows !! i = Some {| model := model_name;
                                  row_coverage_rate := coverage_rate cov;
                                  sections_addressed := sections_addressed_in_critique cov;
                                  row_precision := precision det;
                                  row_recall := recall det;
                                  row_f1_score := f1_score det;
                                  row_true_positives := true_positives det;
                                  row_false_positives := false_positives det;
                                  row_false_negatives := false_negatives det;
                                  critique_length := length (py_split critique) |}.
Proof.
  induction critiques as [|[name critique] rest IH].
  - exists []. split; [reflexivity|]. split; [reflexivity|]. intros i ? ? H. discriminate H.
  - destruct IH as (rows & Hrows & Hlen & Hi).
    destruct (calculate_section_coverage_spec cv_text critique) as (cov & Hcov & _).
    destruct (calculate_issue_detection_metrics_spec cv_text critique g) as (det & Hdet & _).
    simpl. rewrite Hcov, Hdet, Hrows. simpl.
    eexists. split; [reflexivity|]. split; [simpl; rewrite Hlen; reflexivity|].
    intros [|i] name' critique' Hc; simpl in Hc.
    + injection Hc as <- <-. exists cov, det. auto.
    + apply Hi. exact Hc.
Qed.

Lemma best_model_row_In (rows : list model_row) (best : model_row) :
  best_model_row rows = Some best -> In best rows.
Proof.
  unfold best_model_row, mbind, option_bind.
  destruct (idxmax _); [|discriminate]. intros H.
  apply list_elem_of_In, list_elem_of_lookup_2 with (i := n). exact H.
Qed.

Lemma best_model_row_exists (rows : list model_row) :
  rows <> [] -> exists best, best_model_row rows = Some best.
Proof.
  intros Hne. unfold best_model_row, mbind, option_bind.
  destruct (idxmax (map row_f1_score rows)) as [i|] eqn:Hi.
  - destruct (idxmax_spec _ _ Hi) as (m & Hm & _).
    apply lookup_map_Some in Hm as (best & Hb & _). eauto.
  - destruct rows; [contradiction|discriminate].
Qed.

(** Step 5 evaluates the critiques exactly when there is an API key, the
    library is loaded, every [genai.GenerativeModel] is created and the
    critique files are saved; failing API calls do not prevent it (they
    give "Error: ..." texts). The table then has the rows gentle, medium
    and brutal, and the best row is one of them, unless the metrics file
    cannot be written, which stops the script. Otherwise step 5 only
    reports the detector's issues. *)
Theorem process_steps_evaluate_iff_key_and_library
    (system_prompt : string -> string) (generate_content : Q -> string -> api_result)
    (model_created : Q -> bool) (api_key : option string) (genai_loaded : bool)
    (critiques_saved metrics_saved : bool) (cv_text : string) :
  let outcome := process_steps_4_5 system_prompt generate_content model_created
                   api_key genai_loaded critiques_saved metrics_saved cv_text in
  if py_truthy api_key && genai_loaded
     && forallb (fun '(_, temperature) => model_created temperature) critique_models
     && critiques_saved
  then (if metrics_saved
        then exists rows best,
               outcome = Some (Evaluated rows (Some best))
               /\ map model rows = ["gentle"; "medium"; "brutal"]
               /\ In best rows
        else outcome = None)
  else outcome = Some (IssuesOnly (detect_cv_issues cv_text)).
Proof.
  cbv zeta. unfold process_steps_4_5, generate_critiques.
  destruct (py_truthy api_key), genai_loaded; cbv beta iota delta [andb negb orb];
    try reflexivity.
  cbv beta iota delta [generate_loop critique_models mbind option_bind forallb].
  destruct (model_created (4 # 10)%Q), (model_created (7 # 10)%Q), (model_created (9 # 10)%Q);
    cbv beta iota zeta; try reflexivity.
  destruct critiques_saved; cbv beta iota zeta; [|reflexivity].
  match goal with |- context [evaluate_all_models cv_text ?l None] => set (cs := l) end.
  destruct (evaluate_all_models_rows cv_text cs None) as (rows & Hrows & Hlen & _).
  pose proof (evaluate_all_models_order _ _ _ _ Hrows) as Horder.
  assert (Hcs : map fst cs = ["gentle"; "medium"; "brutal"]) by reflexivity.
  rewrite Hrows. cbv beta iota.
  destruct metrics_saved; [|reflexivity].
  destruct (best_model_row rows) as [best|] eqn:Hbest.
  - exists rows, best. split; [reflexivity|]. split.
    + rewrite Horder. exact Hcs.
    + apply best_model_row_In. exact Hbest.
  - exfalso. destruct (best_model_row_exists rows) as (best & Hb).
    + intros ->. discriminate Hlen.
    + congruence.
Qed.

(** The key used is the first non-empty value among [--api-key],
    [config.GEMINI_API_KEY] and the [.env] variable; no key is used when
    all of them are missing or empty. *)
Theorem resolve_api_key_first_nonempty (cli_key config_key : option string)
    (env_key : option (option string)) :
  let env_value := match env_key with Some k => k | None => None end in
  py_truthy (resolve_api_key cli_key config_key env_key)
    = py_truthy cli_key || py_truthy config_key || py_truthy env_value
  /\ (py_truthy cli_key = true -> resolve_api_key cli_key config_key env_key = cli_key)
  /\ (py_truthy cli_key = false -> py_truthy config_key = true ->
        resolve_api_key cli_key config_key env_key = config_key)
  /\ (py_truthy cli_key = false -> py_truthy config_key = false -> py_truthy env_value = true ->
        resolve_api_key cli_key config_key env_key = env_value).
Proof.
  intros env_value. subst env_value. unfold resolve_api_key.
  destruct cli_key as [c|]; [destruct (String.eqb c "") eqn:Ec|];
    (destruct config_key as [k|]; [destruct (String.eqb k "") eqn:Ek|]);
    (destruct env_key as [[e|]|]; [destruct (String.eqb e "") eqn:Ee| |]);
    do 3 (unfold py_truthy in *; rewrite ?Ec, ?Ek, ?Ee in *; cbn [negb orb] in *);
    repeat split; intros; try discriminate; try reflexivity.
Qed.

(* ------------------------------------------------------------------ *)
(** ** [check_setup] and the key mask *)

Lemma exit_code_zero_iff (issues warnings : list string) :
  match issues, warnings with [], [] => 0 | _, _ => 1 end = 0
  <-> issues = [] /\ warnings = [].
Proof. destruct issues, warnings; simpl; split; intros H; try discriminate; intuition congruence. Qed.

Lemma exit_code_01 (issues warnings : list string) :
  match issues, warnings with [], [] => 0 | _, _ => 1 end = 0
  \/ match issues, warnings with [], [] => 0 | _, _ => 1 end = 1.
Proof. destruct issues, warnings; auto. Qed.

Lemma app_nil_iff_strings (l1 l2 : list string) : l1 ++ l2 = [] <-> l1 = [] /\ l2 = [].
Proof. split; [apply app_eq_nil|intros [-> ->]; reflexivity]. Qed.

Lemma match_missing_nil (issues0 missing : list string) (x : string) :
  match missing with [] => issues0 | _ :: _ => (issues0 ++ [x])%list end = []
  <-> issues0 = [] /\ missing = [].
Proof.
  destruct missing; [tauto|]. rewrite app_nil_iff_strings.
  split; [intros [_ H]; discriminate|intros [_ H]; discriminate].
Qed.

Lemma config_issues_None (env : setup_env) :
  config_issues env = None
  <-> config_exists env = true
      /\ (config_import env = ConfigValue KeyTruthyOther \/ config_import env = ConfigOtherError).
Proof.
  unfold config_issues. destruct (config_exists env); [|split; [discriminate|intros [H _]; discriminate]].
  destruct (config_import env) as [[key| |]|e|];
    try (destruct (_ && _)); split; intros H; try discriminate; try tauto;
    destruct H as [_ [H|H]]; discriminate.
Qed.

Lemma config_issues_nil (env : setup_env) :
  config_issues env = Some []
  <-> config_exists env = true
      /\ exists key, config_import env = ConfigValue (KeyStr key)
                     /\ key <> "" /\ key <> "YOUR_API_KEY_HERE".
Proof.
  unfold config_issues. destruct (config_exists env);
    [|split; [discriminate|intros [H _]; discriminate]].
  destruct (config_import env) as [[key| |]|e|];
    try (split; [discriminate|intros (_ & k & H & _); discriminate]).
  destruct (String.eqb key "") eqn:E1, (String.eqb key "YOUR_API_KEY_HERE") eqn:E2; simpl;
    apply String.eqb_eq in E1 || apply String.eqb_neq in E1;
    apply String.eqb_eq in E2 || apply String.eqb_neq in E2;
    (split; [intros H; try discriminate H|intros (_ & k & [= <-] & H1 & H2); try congruence]).
  split; [reflexivity|]. eauto.
Qed.

Lemma gitignore_warnings_None (env : setup_env) :
  gitignore_warnings env = None <-> gitignore env = FileUnreadable.
Proof.
  unfold gitignore_warnings. destruct (gitignore env) as [| |content];
    [split; discriminate|tauto|].
  destruct (py_in "config.py" content); split; discriminate.
Qed.

Lemma gitignore_warnings_nil (env : setup_env) :
  gitignore_warnings env = Some []
  <-> exists content, gitignore env = FileContent content /\ py_in "config.py" content = true.
Proof.
  unfold gitignore_warnings. destruct (gitignore env) as [| |content];
    try (split; [discriminate|intros (c & H & _); discriminate]).
  destruct (py_in "config.py" content) eqn:E.
  - split; [eauto|reflexivity].
  - split; [discriminate|intros (c & [= <-] & H); congruence].
Qed.

Lemma dir_warnings_nil (env : setup_env) :
  dir_warnings env = []
  <-> dir_exists env "data" = true /\ dir_exists env "results" = true
      /\ dir_exists env "notebooks" = true.
Proof.
  unfold dir_warnings. simpl.
  destruct (dir_exists env "data"), (dir_exists env "results"), (dir_exists env "notebooks");
    simpl; split; intros H; intuition discriminate.
Qed.

Lemma missing_deps_loop_None (env : setup_env) (packages : list string) :
  missing_deps_loop env packages = None
  <-> List.Exists (fun p => importable env (import_name p) = ImportRaises) packages.
Proof.
  induction packages as [|p rest IH]; simpl.
  - split; [discriminate|intros H; inversion H].
  - rewrite List.Exists_cons, <- IH.
    destruct (importable env (import_name p)); cbv beta iota delta [mbind option_bind].
    + split; [tauto|intros [H|H]; [discriminate|exact H]].
    + destruct (missing_deps_loop env rest); split; try discriminate; try tauto;
        intros [H|H]; discriminate.
    + tauto.
Qed.

Lemma missing_deps_loop_nil (env : setup_env) (packages : list string) :
  missing_deps_loop env packages = Some []
  <-> List.Forall (fun p => importable env (import_name p) = Imported) packages.
Proof.
  induction packages as [|p rest IH]; simpl.
  - split; [constructor|reflexivity].
  - rewrite List.Forall_cons_iff, <- IH.
    destruct (importable env (import_name p)); cbv beta iota delta [mbind option_bind].
    + tauto.
    + destruct (missing_deps_loop env rest); split; try discriminate; intros [H _]; discriminate.
    + split; [discriminate|intros [H _]; discriminate].
Qed.

Lemma check_setup_None_iff (env : setup_env) :
  check_setup env = None
  <-> config_issues env = None \/ gitignore_warnings env = None
      \/ missing_deps_loop env ["pandas"; "google.generativeai"; "PyPDF2"] = None.
Proof.
  unfold check_setup. destruct (config_issues env), (gitignore_warnings env),
    (missing_deps_loop env _); cbv beta iota delta [mbind option_bind];
    split; intros H; try discriminate; try tauto; intuition discriminate.
Qed.

Lemma check_setup_zero_iff (env : setup_env) :
  (exists issues warnings, check_setup env = Some (issues, warnings, 0))
  <-> config_issues env = Some [] /\ gitignore_warnings env = Some []
      /\ dir_warnings env = []
      /\ missing_deps_loop env ["pandas"; "google.generativeai"; "PyPDF2"] = Some [].
Proof.
  unfold check_setup.
  destruct (config_issues env) as [issues0|];
    [|split; [intros (i & w & H); discriminate|intros [H _]; discriminate]].
  destruct (gitignore_warnings env) as [w0|];
    [|split; [intros (i & w & H); discriminate|intros (_ & H & _); discriminate]].
  destruct (missing_deps_loop env _) as [missing|];
    [|split; [intros (i & w & H); discriminate|intros (_ & _ & _ & H); discriminate]].
  cbv beta iota delta [mbind option_bind].
  set (issues := match missing with [] => issues0 | _ => _ end).
  split.
  - intros (i & w & [= Hi Hw Hc]). apply exit_code_zero_iff in Hc as [Hi0 Hw0].
    apply app_nil_iff_strings in Hw0 as [-> ->]. unfold issues in Hi0.
    apply match_missing_nil in Hi0 as [-> ->]. tauto.
  - intros ([= ->] & [= ->] & Hd & [= ->]). exists [], []. rewrite Hd. reflexivity.
Qed.

(** [check_setup] raises exactly when config.py exists and running it
    raises something other than [ImportError] or binds a truthy key that
    is not a [str], when .gitignore exists but cannot be read, or when
    one of the imports raises something other than [ImportError].
    Otherwise it returns 0 or 1, and 0 exactly when config.py exists
    and imports a [str] key that is neither empty nor the placeholder,
    .gitignore contains "config.py", the directories data, results and
    notebooks exist, and the modules pandas, google_generativeai (the
    name [google.generativeai] with its dot replaced, which is not the
    module of the Gemini library) and PyPDF2 import. *)
Theorem check_setup_exit_code (env : setup_env) :
  (check_setup env = None
   <-> (config_exists env = true
        /\ (config_import env = ConfigValue KeyTruthyOther \/ config_import env = ConfigOtherError))
       \/ gitignore env = FileUnreadable
       \/ importable env "pandas" = ImportRaises
       \/ importable env "google_generativeai" = ImportRaises
       \/ importable env "PyPDF2" = ImportRaises)
  /\ (forall issues warnings code,
        check_setup env = Some (issues, warnings, code) -> code = 0 \/ code = 1)
  /\ ((exists issues warnings, check_setup env = Some (issues, warnings, 0))
      <-> config_exists env = true
          /\ (exists key, config_import env = ConfigValue (KeyStr key)
                          /\ key <> "" /\ key <> "YOUR_API_KEY_HERE")
          /\ (exists content, gitignore env = FileContent content
                              /\ py_in "config.py" content = true)
          /\ dir_exists env "data" = true /\ dir_exists env "results" = true
          /\ dir_exists env "notebooks" = true
          /\ importable env "pandas" = Imported
          /\ importable env "google_generativeai" = Imported
          /\ importable env "PyPDF2" = Imported).
Proof.
  split; [|split].
  - rewrite check_setup_None_iff, config_issues_None, gitignore_warnings_None,
      missing_deps_loop_None, !List.Exists_cons, List.Exists_nil.
    change (import_name "pandas") with "pandas".
    change (import_name "google.generativeai") with "google_generativeai".
    change (import_name "PyPDF2") with "PyPDF2".
    tauto.
  - intros issues warnings code. unfold check_setup.
    destruct (config_issues env), (gitignore_warnings env), (missing_deps_loop env _);
      cbv beta iota delta [mbind option_bind]; try discriminate.
    intros [= _ _ <-]. apply exit_code_01.
  - rewrite check_setup_zero_iff, config_issues_nil, gitignore_warnings_nil, dir_warnings_nil,
      missing_deps_loop_nil, !List.Forall_cons_iff.
    change (import_name "pandas") with "pandas".
    change (import_name "google.generativeai") with "google_generativeai".
    change (import_name "PyPDF2") with "PyPDF2".
    split.
    + intros ((? & ?) & ? & (? & ? & ?) & (? & ? & ? & _)). tauto.
    + intros (? & ? & ? & ? & ? & ? & ? & ? & ?). repeat split; try assumption; constructor.
Qed.

Lemma substring_split (s : string) (n m k : nat) :
  String.append (substring n m s) (substring (n + m) k s) = substring n (m + k) s.
Proof.
  revert n m. induction s as [|c s IH]; intros n m.
  - destruct n, m, k; reflexivity.
  - destruct n as [|n].
    + destruct m as [|m].
      * destruct k; reflexivity.
      * simpl. rewrite str_app_cons. f_equal. apply (IH 0 m).
    + simpl. apply IH.
Qed.

Lemma substring_whole (s : string) (m : nat) : String.length s <= m -> substring 0 m s = s.
Proof.
  revert m. induction s as [|c s IH]; intros m Hm.
  - destruct m; reflexivity.
  - destruct m as [|m]; simpl in Hm; [lia|]. simpl. f_equal. apply IH. lia.
Qed.

Lemma str_app_nil_r (s : string) : String.append s EmptyString = s.
Proof. induction s as [|c s IH]; [reflexivity|]. rewrite str_app_cons, IH. reflexivity. Qed.

(** The mask [key[:10] + "..." + key[-5:]] hides nothing of a key of at
    most 15 characters: the key is the part before "..." followed by a
    suffix of the part after it. *)
Theorem mask_key_reveals_short_keys (key : string) :
  String.length key <= 15 ->
  exists visible_prefix overlap visible_suffix,
    mask_key key = String.append visible_prefix
                     (String.append "..." (String.append overlap visible_suffix))
    /\ key = String.append visible_prefix visible_suffix.
Proof.
  intros Hlen. unfold mask_key.
  destruct (Nat.le_gt_cases (String.length key) 10) as [Hs|Hs].
  - exists key, (substring (String.length key - 5) 5 key), EmptyString.
    rewrite substring_whole by exact Hs. rewrite !str_app_nil_r. split; reflexivity.
  - exists (substring 0 10 key), (substring (String.length key - 5) (15 - String.length key) key),
      (substring 10 (String.length key - 10) key).
    split.
    + f_equal. f_equal.
      pose proof (substring_split key (String.length key - 5) (15 - String.length key)
                    (String.length key - 10)) as H.
      replace (String.length key - 5 + (15 - String.length key)) with 10 in H by lia.
      replace (15 - String.length key + (String.length key - 10)) with 5 in H by lia.
      rewrite H. reflexivity.
    + pose proof (substring_split key 0 10 (String.length key - 10)) as H.
      replace (10 + (String.length key - 10)) with (String.length key) in H by lia.
      simpl (0 + 10) in H. rewrite H, substring_whole; reflexivity.
Qed.

(* ------------------------------------------------------------------ *)
(** ** [_extract_section] *)

Lemma ic_match_starts_with (kw : string) (last : option ascii) (s : string) l rest :
  ic_match kw last s = Some (l, rest) -> starts_with (py_lower kw) (py_lower s) = true.
Proof.
  revert last s. induction kw as [|a kw IH]; intros last s H; [reflexivity|].
  destruct s as [|b s]; [discriminate|]. cbn [ic_match py_lower starts_with] in H |- *.
  destruct (Ascii.eqb (py_lower_char a) (py_lower_char b)) eqn:E; [|discriminate].
  exact (IH _ _ H).
Qed.

Lemma section_match_at_starts_with (kw : string) (before : option ascii) (s m : string) :
  section_match_at kw before s = Some m -> starts_with (py_lower kw) (py_lower s) = true.
Proof.
  unfold section_match_at. destruct (word_boundary _ _); [|discriminate].
  destruct (ic_match kw before s) as [[l rest]|] eqn:E; [|discriminate].
  intros _. exact (ic_match_starts_with _ _ _ _ _ E).
Qed.

Lemma search_section_py_in (kw : string) (before : option ascii) (s m : string) :
  search_section kw before s = Some m -> py_in (py_lower kw) (py_lower s) = true.
Proof.
  revert before. induction s as [|c r IH]; intros before H; simpl in H.
  - destruct (section_match_at kw before EmptyString) eqn:E; [|discriminate].
    apply section_match_at_starts_with in E.
    change (py_lower EmptyString) with EmptyString in *. cbn [py_in]. rewrite E. reflexivity.
  - change (py_lower (String c r)) with (String (py_lower_char c) (py_lower r)).
    cbn [py_in]. destruct (section_match_at kw before (String c r)) eqn:E.
    + apply section_match_at_starts_with in E.
      change (py_lower (String c r)) with (String (py_lower_char c) (py_lower r)) in E.
      rewrite E. reflexivity.
    + rewrite (IH _ H). apply orb_true_r.
Qed.

(** For a text of code points below U+0100, a section is only extracted
    when one of its keywords occurs in the lower-cased text: otherwise
    [_extract_section] returns "". *)
Theorem extract_section_needs_keyword (text : string) (keywords : list string) :
  List.Forall (fun kw => py_in (py_lower kw) (py_lower text) = false) keywords ->
  extract_section text keywords = EmptyString.
Proof.
  induction 1 as [|kw rest Hkw _ IH]; [reflexivity|]. simpl.
  destruct (search_section kw None text) as [m|] eqn:E; [|exact IH].
  apply search_section_py_in in E. congruence.
Qed.

Lemma ic_match_split (kw : string) (last : option ascii) (s : string) l rest :
  ic_match kw last s = Some (l, rest) ->
  s = String.append (substring 0 (String.length kw) s) rest.
Proof.
  revert last s. induction kw as [|a kw IH]; intros last s H.
  - simpl in H. injection H as _ <-. destruct s; reflexivity.
  - destruct s as [|b s]; [discriminate|]. simpl in H.
    destruct (Ascii.eqb _ _); [|discriminate].
    simpl. rewrite str_app_cons. f_equal. exact (IH _ _ H).
Qed.

Lemma lazy_until_end_eq (s : string) :
  lazy_until_end s =
  if section_end_at s then EmptyString
  else match s with
       | EmptyString => EmptyString
       | String c r => String c (lazy_until_end r)
       end.
Proof. destruct s; reflexivity. Qed.

Lemma lazy_until_end_prefix (s : string) : exists q, s = String.append (lazy_until_end s) q.
Proof.
  induction s as [|c r [q IH]].
  - exists EmptyString. reflexivity.
  - rewrite lazy_until_end_eq. destruct (section_end_at (String c r)).
    + exists (String c r). reflexivity.
    + exists q. rewrite str_app_cons. f_equal. exact IH.
Qed.

Lemma section_match_at_prefix (kw : string) (before : option ascii) (s m : string) :
  section_match_at kw before s = Some m -> exists y, s = String.append m y.
Proof.
  unfold section_match_at. destruct (word_boundary _ _); [|discriminate].
  destruct (ic_match kw before s) as [[l rest]|] eqn:E; [|discriminate].
  destruct (word_boundary _ _); [|discriminate]. intros [= <-].
  destruct (lazy_until_end_prefix rest) as [q Hq].
  exists q. rewrite str_app_assoc, <- Hq. exact (ic_match_split _ _ _ _ _ E).
Qed.

Lemma search_section_substring (kw : string) (before : option ascii) (s m : string) :
  search_section kw before s = Some m -> exists x y, s = String.append x (String.append m y).
Proof.
  revert before. induction s as [|c r IH]; intros before H; simpl in H.
  - destruct (section_match_at kw before EmptyString) eqn:E; [|discriminate].
    injection H as <-. destruct (section_match_at_prefix _ _ _ _ E) as [y Hy].
    exists EmptyString, y. exact Hy.
  - destruct (section_match_at kw before (String c r)) eqn:E.
    + injection H as <-. destruct (section_match_at_prefix _ _ _ _ E) as [y Hy].
      exists EmptyString, y. exact Hy.
    + destruct (IH _ H) as (x & y & Hxy).
      exists (String c x), y. rewrite str_app_cons, <- Hxy. reflexivity.
Qed.

Lemma lstrip_suffix (s : string) : exists x, s = String.append x (lstrip s).
Proof.
  induction s as [|c r [x IH]]; [exists EmptyString; reflexivity|]. simpl.
  destruct (py_isspace c).
  - exists (String c x). rewrite str_app_cons, <- IH. reflexivity.
  - exists EmptyString. reflexivity.
Qed.

Lemma rstrip_prefix (s : string) : exists y, s = String.append (rstrip s) y.
Proof.
  induction s as [|c r [y IH]]; [exists EmptyString; reflexivity|]. simpl.
  destruct (py_isspace c && String.eqb (rstrip r) EmptyString).
  - exists (String c r). reflexivity.
  - exists y. rewrite str_app_cons, <- IH. reflexivity.
Qed.

Lemma strip_header_suffix (kw section : string) :
  exists x, section = String.append x (strip_header kw section).
Proof.
  unfold strip_header. destruct (ic_match kw None section) as [[l rest]|] eqn:E.
  - pose proof (ic_match_split _ _ _ _ _ E) as Hs.
    assert (Hc : exists x, rest = String.append x
                   (match rest with
                    | String c r => if Ascii.eqb c ":" then r else rest
                    | EmptyString => rest end)).
    { destruct rest as [|c r]; [exists EmptyString; reflexivity|].
      destruct (Ascii.eqb c ":"); [exists (String c EmptyString)|exists EmptyString]; reflexivity. }
    destruct Hc as [x1 Hx1]. destruct (lstrip_suffix (match rest with
                    | String c r => if Ascii.eqb c ":" then r else rest
                    | EmptyString => rest end)) as [x2 Hx2].
    exists (String.append (substring 0 (String.length kw) section) (String.append x1 x2)).
    rewrite !str_app_assoc, <- Hx2, <- Hx1. exact Hs.
  - exists EmptyString. reflexivity.
Qed.

Lemma lstrip_head (s : string) c r : lstrip s = String c r -> py_isspace c = false.
Proof.
  induction s as [|d t IH]; simpl; [discriminate|].
  destruct (py_isspace d) eqn:E; [exact IH|]. intros [= <- _]. exact E.
Qed.

Lemma rstrip_head (s : string) c r : rstrip s = String c r -> head_char s = Some c.
Proof.
  destruct s as [|d t]; simpl; [discriminate|].
  destruct (py_isspace d && String.eqb (rstrip t) EmptyString); [discriminate|].
  intros [= <- _]. reflexivity.
Qed.

Lemma str_app_single_not_empty (p : string) (c : ascii) :
  String.append p (String c EmptyString) <> EmptyString.
Proof. destruct p; [discriminate|]. rewrite str_app_cons. discriminate. Qed.

Lemma rstrip_last (s p : string) (c : ascii) :
  rstrip s = String.append p (String c EmptyString) -> py_isspace c = false.
Proof.
  revert p. induction s as [|d t IH]; intros p H; simpl in H.
  - symmetry in H. apply str_app_single_not_empty in H. contradiction.
  - destruct (py_isspace d && String.eqb (rstrip t) EmptyString) eqn:E.
    + symmetry in H. apply str_app_single_not_empty in H. contradiction.
    + destruct p as [|d' p].
      * rewrite str_app_nil in H. injection H as <- Ht.
        rewrite Ht in E. simpl in E. rewrite andb_true_r in E. exact E.
      * rewrite str_app_cons in H. injection H as _ Ht. exact (IH p Ht).
Qed.

Lemma py_strip_stripped (s : string) :
  (forall c r, py_strip s = String c r -> py_isspace c = false)
  /\ (forall p c, py_strip s = String.append p (String c EmptyString) -> py_isspace c = false).
Proof.
  unfold py_strip. split.
  - intros c r H. apply rstrip_head in H.
    destruct (lstrip s) as [|d t] eqn:E; [discriminate|]. injection H as ->.
    exact (lstrip_head _ _ _ E).
  - intros p c H. exact (rstrip_last _ _ _ H).
Qed.

(** What [_extract_section] returns is a piece of the text itself (the
    text's own letter case is kept) with no whitespace at either end;
    this holds for every field of [parse_cv_text]. *)
Theorem extract_section_substring_stripped (text : string) (keywords : list string) :
  let v := extract_section text keywords in
  (exists x y, text = String.append x (String.append v y))
  /\ (forall c r, v = String c r -> py_isspace c = false)
  /\ (forall p c, v = String.append p (String c EmptyString) -> py_isspace c = false).
Proof.
  induction keywords as [|kw rest IH]; simpl.
  - split; [exists EmptyString, text; reflexivity|]. split; [discriminate|].
    intros p c H. symmetry in H. apply str_app_single_not_empty in H. contradiction.
  - destruct (search_section kw None text) as [m|] eqn:E; [|exact IH].
    split; [|apply py_strip_stripped].
    destruct (search_section_substring _ _ _ _ E) as (x & y & Hm).
    destruct (strip_header_suffix kw m) as [x1 Hx1].
    destruct (lstrip_suffix (strip_header kw m)) as [x2 Hx2].
    destruct (rstrip_prefix (lstrip (strip_header kw m))) as [y1 Hy1].
    exists (String.append x (String.append x1 x2)), (String.append y1 y).
    unfold py_strip. rewrite !str_app_assoc.
    rewrite <- (str_app_assoc (rstrip _) y1 y), <- Hy1, <- (str_app_assoc x2), <- Hx2,
      <- (str_app_assoc x1), <- Hx1.
    exact Hm.
Qed.

Lemma py_lower_length (s : string) : String.length (py_lower s) = String.length s.
Proof. induction s as [|c s IH]; simpl; congruence. Qed.

Lemma substring_app_self (p y : string) :
  substring 0 (String.length p) (String.append p y) = p.
Proof.
  induction p as [|c p IH]; [destruct y; reflexivity|].
  rewrite str_app_cons. simpl. rewrite IH. reflexivity.
Qed.

Lemma ic_match_lower_app (kw p x : string) (cl : ascii) (last : option ascii) :
  py_lower kw = py_lower (String.append p (String cl EmptyString)) ->
  ic_match kw last (String.append (String.append p (String cl EmptyString)) x) = Some (Some cl, x).
Proof.
  revert kw last. induction p as [|d p IH]; intros kw last H.
  - destruct kw as [|k kw]; [discriminate|]. rewrite str_app_nil in H |- *.
    cbn [py_lower] in H. injection H as Hk Hkw.
    destruct kw; [|discriminate].
    rewrite str_app_cons. cbn [ic_match]. rewrite Hk, Ascii.eqb_refl. reflexivity.
  - destruct kw as [|k kw]; [discriminate|]. rewrite !str_app_cons in *.
    cbn [py_lower] in H. injection H as Hk Hkw.
    cbn [ic_match]. rewrite Hk, Ascii.eqb_refl. exact (IH _ _ Hkw).
Qed.

Lemma lazy_until_end_line (a rest : string) :
  str_has (ascii_of_nat 10) a = false ->
  section_end_at (String (ascii_of_nat 10) rest) = true ->
  lazy_until_end (String.append a (String (ascii_of_nat 10) rest)) = a.
Proof.
  intros Ha Hend. induction a as [|c a IH].
  - rewrite str_app_nil, lazy_until_end_eq, Hend. reflexivity.
  - cbn [str_has] in Ha. apply orb_false_iff in Ha as [Hc Ha].
    rewrite str_app_cons, lazy_until_end_eq.
    assert (Hs : section_end_at (String c (String.append a (String (ascii_of_nat 10) rest))) = false).
    { unfold section_end_at. rewrite Ascii.eqb_sym, Hc. reflexivity. }
    rewrite Hs, IH by exact Ha. reflexivity.
Qed.

Lemma lstrip_idem (s : string) : lstrip (lstrip s) = lstrip s.
Proof.
  induction s as [|c s IH]; [reflexivity|]. simpl.
  destruct (py_isspace c) eqn:E; [exact IH|]. simpl. rewrite E. reflexivity.
Qed.

Lemma search_section_here (kw : string) (before : option ascii) (s m : string) :
  section_match_at kw before s = Some m -> search_section kw before s = Some m.
Proof. intros H. destruct s; cbn [search_section]; rewrite H; reflexivity. Qed.

Lemma extract_section_first_line (kw p a rest : string) (cl : ascii) (kws : list string) :
  let hdr := String.append p (String cl EmptyString) in
  py_lower kw = py_lower hdr ->
  (forall c r, hdr = String c r -> is_word_char c = true) ->
  is_word_char cl = true ->
  (forall c r, a = String c r -> is_word_char c = false) ->
  str_has (ascii_of_nat 10) a = false ->
  section_end_at (String (ascii_of_nat 10) rest) = true ->
  extract_section (String.append hdr (String.append a (String (ascii_of_nat 10) rest))) (kw :: kws)
  = py_strip (match a with String c r => if Ascii.eqb c ":" then r else a | EmptyString => a end).
Proof.
  intros hdr Hkw Hfirst Hcl Ha Hanl Hend. cbn [extract_section].
  set (x := String.append a (String (ascii_of_nat 10) rest)).
  assert (Hm : section_match_at kw None (String.append hdr x) = Some (String.append hdr a)).
  { unfold section_match_at.
    assert (Hne : exists c0 r0, hdr = String c0 r0)
      by (unfold hdr; destruct p; eexists _, _; reflexivity).
    destruct Hne as (c0 & r0 & Ehdr).
    assert (Hh : head_char (String.append hdr x) = Some c0) by (rewrite Ehdr; reflexivity).
    rewrite Hh. unfold hdr. rewrite ic_match_lower_app by exact Hkw.
    assert (Hb0 : word_boundary None (Some c0) = true)
      by (unfold word_boundary; rewrite (Hfirst c0 r0 Ehdr); reflexivity).
    rewrite Hb0.
    assert (Hb : word_boundary (Some cl) (head_char x) = true).
    { unfold x. destruct a as [|c a].
      - rewrite str_app_nil. unfold word_boundary. rewrite Hcl. reflexivity.
      - rewrite str_app_cons. unfold word_boundary. cbn [head_char].
        rewrite Hcl, (Ha c a eq_refl). reflexivity. }
    rewrite Hb.
    assert (Hl : String.length kw = String.length (String.append p (String cl EmptyString))).
    { rewrite <- (py_lower_length kw), Hkw, py_lower_length. reflexivity. }
    rewrite Hl, substring_app_self. unfold x. rewrite lazy_until_end_line by assumption.
    reflexivity. }
  rewrite (search_section_here _ _ _ _ Hm). unfold strip_header.
  replace (String.append hdr a) with (String.append hdr (String.append a EmptyString))
    by (rewrite str_app_nil_r; reflexivity).
  unfold hdr. rewrite ic_match_lower_app by exact Hkw. rewrite str_app_nil_r.
  unfold py_strip. rewrite lstrip_idem. reflexivity.
Qed.

Lemma letters_then_colon_app (h b : string) :
  h <> EmptyString -> (forall c, str_has c h = true -> is_ascii_letter c = true) ->
  letters_then_colon (String.append h (String ":" b)) = true.
Proof.
  induction h as [|c h IH]; intros Hne Hl; [contradiction|].
  rewrite str_app_cons. cbn [letters_then_colon].
  rewrite (Hl c) by (cbn [str_has]; rewrite Ascii.eqb_refl; reflexivity).
  destruct h as [|d h]; [reflexivity|].
  rewrite IH; [apply orb_true_r|discriminate|].
  intros e He. apply Hl. cbn [str_has] in *. rewrite He. apply orb_true_r.
Qed.


(** A section runs from its keyword (found ignoring case, between word
    boundaries) to the first following line that starts like a header
    [Word:]: for ["Skills: Python, SQL\nEducation: ..."] and the keyword
    "skills" the section is ["Python, SQL"], with the colon after the
    keyword and the surrounding whitespace removed. *)
Theorem extract_section_stops_at_next_header (kw p a h b : string) (cl l : ascii) (kws : list string) :
  let hdr := String.append p (String cl EmptyString) in
  py_lower kw = py_lower hdr ->
  (forall c r, hdr = String c r -> is_word_char c = true) ->
  is_word_char cl = true ->
  (forall c r, a = String c r -> is_word_char c = false) ->
  str_has (ascii_of_nat 10) a = false ->
  is_ascii_letter l = true -> h <> EmptyString ->
  (forall c, str_has c h = true -> is_ascii_letter c = true) ->
  extract_section
    (String.append hdr (String.append a
       (String (ascii_of_nat 10) (String l (String.append h (String ":" b)))))) (kw :: kws)
  = py_strip (match a with String c r => if Ascii.eqb c ":" then r else a | EmptyString => a end).
Proof.
  intros hdr Hkw Hfirst Hcl Ha Hanl Hl Hh Hhl.
  apply extract_section_first_line; try assumption.
  unfold section_end_at. rewrite Ascii.eqb_refl, Hl, letters_then_colon_app by assumption.
  reflexivity.
Qed.


Lemma str_has_forallb (f : ascii -> bool) (h : string) :
  List.forallb f (list_ascii_of_string h) = true ->
  forall c, str_has c h = true -> f c = true.
Proof.
  induction h as [|d h IH]; intros Hf c Hc; [discriminate|].
  cbn [list_ascii_of_string List.forallb str_has] in *.
  apply andb_true_iff in Hf as [Hd Hf]. apply orb_true_iff in Hc as [Hc|Hc].
  - apply Ascii.eqb_eq in Hc. subst. exact Hd.
  - exact (IH Hf c Hc).
Qed.

(* ------------------------------------------------------------------ *)
(** ** Witnesses *)

Lemma silent_critique_scores_witness :
  exists r, calculate_issue_detection_metrics "Jane Doe. Skills: Python" "Looks fine to me."
              (Some ["vague_objective"]) = Some r
    /\ detected_issues r = [] /\ true_positives r = 0 /\ false_positives r = 0
    /\ false_negatives r = size (list_to_set (ground_truth_issues r) : gset string)
    /\ (precision r == 0 /\ recall r == 0 /\ f1_score r == 0)%Q.
Proof.
  apply silent_critique_scores.
  cbv [COMMON_CV_ISSUES]. repeat (constructor; [vm_compute; reflexivity|]). constructor.
Defined.

Lemma evaluate_all_models_case_insensitive_witness :
  evaluate_all_models "Skills: Python" [("gentle", "Too VAGUE, add Numbers.")] None
  = evaluate_all_models "Skills: Python" [("gentle", "too vague, add numbers.")] None.
Proof.
  apply evaluate_all_models_case_insensitive.
  constructor; [split; [reflexivity|vm_compute; reflexivity]|constructor].
Defined.

Lemma detect_cv_issues_case_insensitive_but_metrics_witness :
  List.filter (fun x => negb (String.eqb x "no_metrics")) (detect_cv_issues "SYNERGY Team Player")
  = List.filter (fun x => negb (String.eqb x "no_metrics")) (detect_cv_issues "synergy team player").
Proof.
  apply detect_cv_issues_case_insensitive_but_metrics. vm_compute. reflexivity.
Defined.

Lemma mask_key_reveals_short_keys_witness :
  exists visible_prefix overlap visible_suffix,
    mask_key "abcdefghijkl" = String.append visible_prefix
                     (String.append "..." (String.append overlap visible_suffix))
    /\ "abcdefghijkl" = String.append visible_prefix visible_suffix.
Proof.
  apply mask_key_reveals_short_keys. apply Nat.leb_le. reflexivity.
Defined.

Lemma extract_section_needs_keyword_witness :
  extract_section (String.append "Jane Doe" (String.append nl "Python, SQL"))
    ["skills"; "technical skills"] = EmptyString.
Proof.
  apply extract_section_needs_keyword.
  repeat (constructor; [vm_compute; reflexivity|]). constructor.
Defined.

Lemma extract_section_stops_at_next_header_witness :
  extract_section
    (String.append "Skills: Python, SQL" (String.append nl "Education: BSc")) ["skills"]
  = "Python, SQL".
Proof.
  refine (extract_section_stops_at_next_header "skills" "Skill" ": Python, SQL" "ducation" " BSc"
            "s" "E" [] _ _ _ _ _ _ _ _).
  - vm_compute. reflexivity.
  - intros c r H. vm_compute in H. inversion H. reflexivity.
  - reflexivity.
  - intros c r H. inversion H. reflexivity.
  - vm_compute. reflexivity.
  - reflexivity.
  - discriminate.
  - apply str_has_forallb. vm_compute. reflexivity.
Defined.

